(** * Content flagging: the analysis engine of [content-flagging.ts]

    A shallow embedding of the pattern catalog ([patterns.ts]) and of the
    scoring engine ([content-flagging.ts]), with the regular expressions of
    the catalog run by a backtracking matcher that follows the ECMAScript
    pattern semantics, and the confidence arithmetic carried out on IEEE 754
    binary64 numbers, which is what a JavaScript [number] is. *)

From Stdlib Require Import List NArith ZArith Bool Lia.
From Stdlib Require Import Ascii.
From Stdlib Require String.
From Stdlib Require Import Floats.
Import ListNotations.
Import String.StringSyntax.

Abbreviation string := String.string.

Set Warnings "-inexact-float,-register-all".

(* ================================================================== *)
(** * JavaScript strings *)
(* ================================================================== *)

(** A JavaScript string is a finite sequence of UTF-16 code units; [length]
    counts code units, and a regular expression without the [u] flag reads
    the string one code unit at a time. *)
Module Js.

Definition CodeUnit := N.
Definition JsString := list CodeUnit.

(** A literal of the source, written with the characters of Basic Latin. *)
Definition str (s : string) : JsString :=
  map N_of_ascii (String.list_ascii_of_string s).

Definition chr (a : ascii) : CodeUnit := N_of_ascii a.

Definition between (lo hi c : N) : bool := ((lo <=? c) && (c <=? hi))%N.

Definition isDigit (c : CodeUnit) : bool := between 48 57 c.
Definition isUpper (c : CodeUnit) : bool := between 65 90 c.
Definition isLower (c : CodeUnit) : bool := between 97 122 c.

(** [\w] without the [u] flag: the 63 characters [A-Za-z0-9_]. *)
Definition isWordChar (c : CodeUnit) : bool :=
  isUpper c || isLower c || isDigit c || (c =? 95)%N.

(** LineTerminator: LF, CR, LS, PS. *)
Definition isLineTerminator (c : CodeUnit) : bool :=
  ((c =? 10) || (c =? 13) || (c =? 8232) || (c =? 8233))%N.

(** WhiteSpace and LineTerminator, the set that [\s] matches and that
    [String.prototype.trim] strips: TAB, LF, VT, FF, CR, SP, NBSP, U+1680,
    U+2000..U+200A, LS, PS, U+202F, U+205F, U+3000 and the BOM U+FEFF. *)
Definition isWhiteSpace (c : CodeUnit) : bool :=
  (between 9 13 c || (c =? 32) || (c =? 160) || (c =? 5760)
   || between 8192 8202 c || (c =? 8232) || (c =? 8233) || (c =? 8239)
   || (c =? 8287) || (c =? 12288) || (c =? 65279))%N.

Fixpoint trimStart (s : JsString) : JsString :=
  match s with
  | c :: s' => if isWhiteSpace c then trimStart s' else s
  | [] => []
  end.

Definition trimEnd (s : JsString) : JsString := rev (trimStart (rev s)).

(** [String.prototype.trim] *)
Definition trim (s : JsString) : JsString := trimEnd (trimStart s).

(** [Array.prototype.join] on an array of strings *)
Fixpoint join (sep : JsString) (xs : list JsString) : JsString :=
  match xs with
  | [] => []
  | [x] => x
  | x :: rest => x ++ sep ++ join sep rest
  end.

End Js.

Import Js.

(* ================================================================== *)
(** * Regular expressions *)
(* ================================================================== *)

(** The abstract syntax of the patterns that occur in [patterns.ts], and a
    matcher for it written after the ECMAScript specification of pattern
    semantics (22.2.2): a matcher takes a state and a continuation and
    backtracks through the alternatives until the continuation succeeds. *)
Module RegExp.

Inductive ClassAtom : Type :=
| CChar (c : CodeUnit)            (* a single character *)
| CRange (lo hi : CodeUnit)       (* lo-hi *)
| CDigit                          (* \d *)
| CWord                           (* \w *)
| CSpace.                         (* \s *)

Inductive Regex : Type :=
| REmpty
| RChar (c : CodeUnit)
| RDot                                    (* . *)
| RClass (cs : list ClassAtom)            (* [...] and \d \w \s *)
| RSeq (r1 r2 : Regex)
| RAlt (r1 r2 : Regex)                    (* r1|r2 *)
| RRepeat (r : Regex) (min : nat) (max : option nat)  (* greedy r{min,max} *)
| RGroup (i : nat) (r : Regex)            (* the i-th capturing group *)
| RBackref (i : nat)                      (* \i *)
| RWordBoundary                           (* \b *)
| RNegLookahead (r : Regex).              (* (?!r) *)

(** A compiled pattern: its body and its [i] flag. No pattern of the
    catalog carries another flag. *)
Record RegExp : Type := mkRegExp { source : Regex; ignoreCase : bool }.

(** Canonicalize (22.2.5.6) without the [u] flag maps a code unit to its
    upper-case form, and never maps a code unit of 128 or more to one below
    128. Every character written in the catalog is below 128, so on the code
    units from 128 up only this last property matters and they are left as
    they are. *)
Definition canonicalize (ic : bool) (c : CodeUnit) : CodeUnit :=
  if ic then (if isLower c then c - 32 else c)%N else c.

Definition charEq (ic : bool) (a b : CodeUnit) : bool :=
  (canonicalize ic a =? canonicalize ic b)%N.

Definition atomMatches (ic : bool) (a : ClassAtom) (c : CodeUnit) : bool :=
  match a with
  | CChar x => charEq ic x c
  | CRange lo hi =>
      between lo hi c
      || (ic && (between lo hi (canonicalize ic c)
                 || (isUpper c && between lo hi (c + 32)%N)))
  | CDigit => isDigit c
  | CWord => isWordChar c
  | CSpace => isWhiteSpace c
  end.

Definition classMatches (ic : bool) (cs : list ClassAtom) (c : CodeUnit) : bool :=
  existsb (fun a => atomMatches ic a c) cs.

(** The state of a match: the input split at the current end index (the part
    before it reversed, so that its head is the previous character) and the
    captures, the most recent first. *)
Record MState : Type := mkMState {
  before : list CodeUnit;
  after : JsString;
  captures : list (nat * JsString)
}.

Definition endIndex (x : MState) : nat := length (before x).

Definition Continuation := MState -> option MState.

Definition advance (x : MState) (c : CodeUnit) (rest : JsString) : MState :=
  mkMState (c :: before x) rest (captures x).

Fixpoint advanceBy (n : nat) (x : MState) : MState :=
  match n, after x with
  | S n', c :: rest => advanceBy n' (advance x c rest)
  | _, _ => x
  end.

Fixpoint lookupCapture (i : nat) (caps : list (nat * JsString)) : option JsString :=
  match caps with
  | [] => None
  | (j, s) :: rest => if Nat.eqb i j then Some s else lookupCapture i rest
  end.

Definition clearCaptures (gs : list nat) (caps : list (nat * JsString))
  : list (nat * JsString) :=
  filter (fun p => negb (existsb (Nat.eqb (fst p)) gs)) caps.

(** The capturing groups that a pattern contains. *)
Fixpoint groupsOf (r : Regex) : list nat :=
  match r with
  | RSeq r1 r2 | RAlt r1 r2 => groupsOf r1 ++ groupsOf r2
  | RRepeat r' _ _ | RNegLookahead r' => groupsOf r'
  | RGroup i r' => i :: groupsOf r'
  | _ => []
  end.

Fixpoint prefixEq (ic : bool) (s t : JsString) : bool :=
  match s, t with
  | [], _ => true
  | a :: s', b :: t' => charEq ic a b && prefixEq ic s' t'
  | _ :: _, [] => false
  end.

(** IsWordChar at the end index and just before it. *)
Definition wordAt (s : list CodeUnit) : bool :=
  match s with
  | c :: _ => isWordChar c
  | [] => false
  end.

Definition decr (max : option nat) : option nat := option_map pred max.

Definition Matcher := MState -> Continuation -> option MState.

(** RepeatMatcher (22.2.2.3.1) for a greedy quantifier: [m] is the matcher of
    the quantified atom and [groups] are its capturing groups, whose captures
    each iteration clears. An iteration that is no longer required and
    consumes nothing is rejected, so once [min] iterations are done each
    further one shortens [after]: [budget] bounds the number of iterations,
    and [min + length (after x) + 1] is never used up (lemma
    [RepeatMatcher_budget]). *)
Fixpoint RepeatMatcher (m : Matcher) (groups : list nat) (budget : nat)
  (min : nat) (max : option nat) (x : MState) (c : Continuation)
  {struct budget} : option MState :=
  match budget with
  | O => None
  | S budget' =>
      match max with
      | Some O => c x
      | _ =>
          let d : Continuation := fun y =>
            if Nat.eqb min 0 && Nat.eqb (endIndex y) (endIndex x)
            then None
            else RepeatMatcher m groups budget' (pred min) (decr max) y c in
          let xr := mkMState (before x) (after x)
                             (clearCaptures groups (captures x)) in
          if Nat.eqb min 0 then
            match m xr d with
            | Some z => Some z
            | None => c x
            end
          else m xr d
      end
  end.

(** The matcher of a pattern. *)
Fixpoint matcher (ic : bool) (r : Regex) (x : MState) (c : Continuation)
  {struct r} : option MState :=
  match r with
  | REmpty => c x
  | RChar a =>
      match after x with
      | ch :: rest => if charEq ic a ch then c (advance x ch rest) else None
      | [] => None
      end
  | RDot =>
      match after x with
      | ch :: rest => if isLineTerminator ch then None else c (advance x ch rest)
      | [] => None
      end
  | RClass cs =>
      match after x with
      | ch :: rest => if classMatches ic cs ch then c (advance x ch rest) else None
      | [] => None
      end
  | RSeq r1 r2 => matcher ic r1 x (fun y => matcher ic r2 y c)
  | RAlt r1 r2 =>
      match matcher ic r1 x c with
      | Some z => Some z
      | None => matcher ic r2 x c
      end
  | RRepeat r' min max =>
      RepeatMatcher (matcher ic r') (groupsOf r')
                    (min + length (after x) + 1) min max x c
  | RGroup i r' =>
      matcher ic r' x (fun y =>
        let s := firstn (endIndex y - endIndex x) (after x) in
        c (mkMState (before y) (after y) ((i, s) :: captures y)))
  | RBackref i =>
      match lookupCapture i (captures x) with
      | None => c x
      | Some s =>
          if prefixEq ic s (after x) then c (advanceBy (length s) x) else None
      end
  | RWordBoundary =>
      if xorb (wordAt (before x)) (wordAt (after x)) then c x else None
  | RNegLookahead r' =>
      match matcher ic r' x Some with
      | Some _ => None
      | None => c x
      end
  end.

(** What [exec] returns on success; the engine only looks at whether there
    is one. *)
Record RegExpMatchArray : Type := mkMatch {
  index : nat;
  matched : JsString;
  groups : list (nat * JsString)
}.

(** RegExpBuiltinExec for a pattern that is neither global nor sticky: the
    matcher is tried at every index from 0 to the length of the input, and
    the first success is the result. *)
Fixpoint execFrom (re : RegExp) (bef : list CodeUnit) (aft : JsString)
  {struct aft} : option RegExpMatchArray :=
  match matcher (ignoreCase re) (source re) (mkMState bef aft []) Some with
  | Some y =>
      Some (mkMatch (length bef)
                    (firstn (endIndex y - length bef) aft)
                    (captures y))
  | None =>
      match aft with
      | [] => None
      | ch :: aft' => execFrom re (ch :: bef) aft'
      end
  end.

(** [String.prototype.match] with a pattern without the [g] flag. *)
Definition String_match (text : JsString) (re : RegExp) : option RegExpMatchArray :=
  execFrom re [] text.

(** [RegExp.prototype.test] *)
Definition test (re : RegExp) (text : JsString) : bool :=
  match String_match text re with Some _ => true | None => false end.

(** [y] is a state of the same input as [x], at or after the end index of
    [x]. *)
Definition later (x y : MState) : Prop :=
  length (after y) <= length (after x) /\
  endIndex y + length (after y) = endIndex x + length (after x).

(** A matcher that calls its continuation on later states only: it cannot
    tell two continuations apart that agree on these. *)
Definition respects (m : Matcher) : Prop :=
  forall x c1 c2, (forall y, later x y -> c1 y = c2 y) -> m x c1 = m x c2.

(** ** Writing patterns *)

Fixpoint seqOf (rs : list Regex) : Regex :=
  match rs with
  | [] => REmpty
  | [r] => r
  | r :: rest => RSeq r (seqOf rest)
  end.

Fixpoint altOf (rs : list Regex) : Regex :=
  match rs with
  | [] => REmpty
  | [r] => r
  | r :: rest => RAlt r (altOf rest)
  end.

(** A run of literal characters. *)
Definition lit (s : string) : Regex := seqOf (map RChar (str s)).

Definition d : Regex := RClass [CDigit].                  (* \d *)
Definition w : Regex := RClass [CWord].                   (* \w *)
Definition plus (r : Regex) : Regex := RRepeat r 1 None.  (* r+ *)
Definition opt (r : Regex) : Regex := RRepeat r 0 (Some 1). (* r? *)
Definition atLeast (n : nat) (r : Regex) : Regex := RRepeat r n None. (* r{n,} *)
Definition times (n : nat) (r : Regex) : Regex := RRepeat r n (Some n). (* r{n} *)
Definition b : Regex := RWordBoundary.                    (* \b *)

(** [/.../i] and [/.../] *)
Definition rx_i (rs : list Regex) : RegExp := mkRegExp (seqOf rs) true.
Definition rx (rs : list Regex) : RegExp := mkRegExp (seqOf rs) false.

End RegExp.

Import RegExp.
Local Open Scope string_scope.

(* ================================================================== *)
(** * types.ts *)
(* ================================================================== *)

Inductive ContentType : Type := text_ | image | video | link.

Inductive SeverityLevel : Type := low | medium | high | critical.

Inductive FlagReason : Type :=
| spam
| hate_speech
| harassment
| violence
| adult_content
| misinformation
| copyright_violation
| phishing
| malware
| inappropriate_language
| personal_information.

(** The string that a [FlagReason] is at run time. *)
Definition reasonName (r : FlagReason) : JsString :=
  str match r with
      | spam => "spam"
      | hate_speech => "hate_speech"
      | harassment => "harassment"
      | violence => "violence"
      | adult_content => "adult_content"
      | misinformation => "misinformation"
      | copyright_violation => "copyright_violation"
      | phishing => "phishing"
      | malware => "malware"
      | inappropriate_language => "inappropriate_language"
      | personal_information => "personal_information"
      end.

(** [metadata] is left out: the engine never reads it. *)
Record ContentItem : Type := mkContentItem {
  id : JsString;
  userId : JsString;
  type : ContentType;
  text : option JsString;
  url : option JsString
}.

Record FlagResult : Type := mkFlagResult {
  isFlagged : bool;
  severity : SeverityLevel;
  reasons : list FlagReason;
  confidence : float;
  details : option JsString
}.

Record Context : Type := mkContext {
  platform : option JsString;
  audience : option JsString;
  previousFlags : option float
}.

Record ContentFlaggingRequest : Type := mkRequest {
  content : ContentItem;
  context : option Context
}.

(* ================================================================== *)
(** * patterns.ts *)
(* ================================================================== *)

Module SPAM_PATTERNS.
Definition phrases : list RegExp :=
  [ rx_i [lit "click here"];
    rx_i [lit "free money"];
    rx_i [lit "make money fast"];
    rx_i [lit "guaranteed profit"];
    rx_i [lit "limited time offer"];
    rx_i [lit "act now"];
    rx_i [lit "no risk"];
    rx_i [lit "get rich quick"];
    rx_i [lit "work from home"];
    rx_i [lit "earn "; opt (RChar (chr "$")); plus d] ].
(* /(.)\1{4,}/ *)
Definition repetition : RegExp := rx [RGroup 1 RDot; atLeast 4 (RBackref 1)].
(* /\b[A-Z\s]{10,}\b/ *)
Definition excessiveCaps : RegExp :=
  rx [b; atLeast 10 (RClass [CRange (chr "A") (chr "Z"); CSpace]); b].
Definition suspiciousUrls : list RegExp :=
  [ rx_i [lit "bit.ly"]; rx_i [lit "tinyurl"]; rx_i [lit "short.link"] ].
End SPAM_PATTERNS.

Module HATE_SPEECH_PATTERNS.
(* /\b(hate|stupid|idiot|moron)\b/i *)
Definition slurs : list RegExp :=
  [ rx_i [b; RGroup 1 (altOf [lit "hate"; lit "stupid"; lit "idiot"; lit "moron"]); b] ].
Definition discriminatory : list RegExp :=
  [ rx_i [lit "all "; plus w; lit " are "; plus w];
    rx_i [plus w; lit " people are "; plus w] ].
End HATE_SPEECH_PATTERNS.

Module HARASSMENT_PATTERNS.
Definition threats : list RegExp :=
  [ rx_i [lit "i will "; plus w; lit " you"];
    rx_i [lit "you should "; plus w; lit " yourself"];
    rx_i [lit "kill yourself"];
    rx_i [lit "die"] ].
Definition intimidation : list RegExp :=
  [ rx_i [lit "watch your back"];
    rx_i [lit "you're dead"];
    rx_i [lit "i know where you live"] ].
End HARASSMENT_PATTERNS.

Module VIOLENCE_PATTERNS.
Definition explicit : list RegExp :=
  [ (* /kill (?!yourself)\w+/i *)
    rx_i [lit "kill "; RNegLookahead (lit "yourself"); plus w];
    rx_i [lit "murder "; plus w];
    rx_i [lit "beat "; plus w; lit " up"];
    rx_i [lit "punch "; plus w] ].
(* /\b(gun|knife|bomb|weapon)\b/i *)
Definition weapons : list RegExp :=
  [ rx_i [b; RGroup 1 (altOf [lit "gun"; lit "knife"; lit "bomb"; lit "weapon"]); b] ].
End VIOLENCE_PATTERNS.

Module ADULT_CONTENT_PATTERNS.
Definition explicit : list RegExp :=
  [ rx_i [b; RGroup 1 (altOf [lit "sex"; lit "porn"; lit "nude"; lit "naked"]); b];
    rx_i [lit "adult content"] ].
End ADULT_CONTENT_PATTERNS.

Module MISINFORMATION_PATTERNS.
Definition conspiracy : list RegExp :=
  [ rx_i [lit "conspiracy"]; rx_i [lit "government cover"]; rx_i [lit "fake news"] ].
Definition medical : list RegExp :=
  [ rx_i [lit "cure for "; plus w];
    rx_i [lit "miracle drug"];
    rx_i [lit "doctors don't want"] ].
End MISINFORMATION_PATTERNS.

Module PHISHING_PATTERNS.
Definition urgency : list RegExp :=
  [ rx_i [lit "urgent action required"];
    rx_i [lit "verify your account"];
    rx_i [lit "suspended account"];
    rx_i [lit "click to verify"] ].
Definition suspicious : list RegExp :=
  [ rx_i [lit "enter your password"];
    rx_i [lit "confirm your details"];
    rx_i [lit "update your information"] ].
End PHISHING_PATTERNS.

(** The character classes of the e-mail pattern. *)
Definition alnum : list ClassAtom :=
  [CRange (chr "A") (chr "Z"); CRange (chr "a") (chr "z"); CRange (chr "0") (chr "9")].

Module PERSONAL_INFO_PATTERNS.
(* /\b\d{3}-\d{2}-\d{4}\b/ *)
Definition ssn : RegExp :=
  rx [b; times 3 d; lit "-"; times 2 d; lit "-"; times 4 d; b].
(* /\b\d{3}-\d{3}-\d{4}\b/ *)
Definition phone : RegExp :=
  rx [b; times 3 d; lit "-"; times 3 d; lit "-"; times 4 d; b].
(* /\b[A-Za-z0-9._%+-]+@[A-Za-z0-9.-]+\.[A-Z|a-z]{2,}\b/ *)
Definition email : RegExp :=
  rx [b;
      plus (RClass (alnum ++ [CChar (chr "."); CChar (chr "_"); CChar (chr "%");
                              CChar (chr "+"); CChar (chr "-")]));
      lit "@";
      plus (RClass (alnum ++ [CChar (chr "."); CChar (chr "-")]));
      lit ".";
      atLeast 2 (RClass [CRange (chr "A") (chr "Z"); CChar (chr "|");
                         CRange (chr "a") (chr "z")]);
      b].
(* /\b\d{4}[\s-]?\d{4}[\s-]?\d{4}[\s-]?\d{4}\b/ *)
Definition creditCard : RegExp :=
  rx [b; times 4 d; opt (RClass [CSpace; CChar (chr "-")]);
      times 4 d; opt (RClass [CSpace; CChar (chr "-")]);
      times 4 d; opt (RClass [CSpace; CChar (chr "-")]);
      times 4 d; b].
End PERSONAL_INFO_PATTERNS.

(** [PATTERN_MAP]: an object, whose entries [Object.entries] lists in the
    order in which the keys were written. *)
Definition PATTERN_MAP : list (FlagReason * list RegExp) :=
  [ (spam,
     SPAM_PATTERNS.phrases
       ++ [SPAM_PATTERNS.repetition; SPAM_PATTERNS.excessiveCaps]
       ++ SPAM_PATTERNS.suspiciousUrls);
    (hate_speech,
     HATE_SPEECH_PATTERNS.slurs ++ HATE_SPEECH_PATTERNS.discriminatory);
    (harassment,
     HARASSMENT_PATTERNS.threats ++ HARASSMENT_PATTERNS.intimidation);
    (violence, VIOLENCE_PATTERNS.explicit ++ VIOLENCE_PATTERNS.weapons);
    (adult_content, ADULT_CONTENT_PATTERNS.explicit);
    (misinformation,
     MISINFORMATION_PATTERNS.conspiracy ++ MISINFORMATION_PATTERNS.medical);
    (phishing, PHISHING_PATTERNS.urgency ++ PHISHING_PATTERNS.suspicious);
    (copyright_violation, []);
    (malware, []);
    (inappropriate_language, HATE_SPEECH_PATTERNS.slurs);
    (personal_information,
     [ PERSONAL_INFO_PATTERNS.ssn; PERSONAL_INFO_PATTERNS.phone;
       PERSONAL_INFO_PATTERNS.email; PERSONAL_INFO_PATTERNS.creditCard ]) ].

(* ================================================================== *)
(** * JavaScript numbers *)
(* ================================================================== *)

(** A [number] is an IEEE 754 binary64 value, the kernel's [float]; [+], [-],
    [*], [<] and [>] are the operations of the format. A literal such as
    [0.2] denotes the nearest binary64 value, in the source and here. *)
Module Number.

Local Open Scope float_scope.

(** ToBoolean of a number: false for +0, -0 and NaN. *)
Definition truthy (x : float) : bool := negb (is_nan x || is_zero x).

(** The length of an array or a string as a number. *)
Definition ofNat (n : nat) : float := of_uint63 (Uint63.of_Z (Z.of_nat n)).

(** [Math.min] and [Math.max] of two arguments: NaN if either is NaN, and
    -0 counts as smaller than +0. *)
Definition Math_min (x y : float) : float :=
  if is_nan x || is_nan y then nan
  else if x <? y then x
  else if y <? x then y
  else if get_sign x then x else y.

Definition Math_max (x y : float) : float :=
  if is_nan x || is_nan y then nan
  else if x <? y then y
  else if y <? x then x
  else if get_sign x then y else x.

(** The result of [Math.round]: an integral number, given by the integer it
    is, or NaN or an infinity. *)
Inductive Integral : Type :=
| INaN
| IInfinity (negative : bool)
| IInt (z : Z).

(** [Math.round x] is the integer closest to [x], the larger one on a tie:
    the floor of [x + 1/2] computed exactly from the mantissa and exponent. *)
Definition Math_round (x : float) : Integral :=
  match Prim2SF x with
  | S754_zero _ => IInt 0
  | S754_infinity s => IInfinity s
  | S754_nan => INaN
  | S754_finite s m e =>
      let n := if s then Z.neg m else Z.pos m in
      if (0 <=? e)%Z then IInt (n * 2 ^ e)
      else IInt ((2 * n + 2 ^ (- e)) / 2 ^ (- e + 1))
  end.

Fixpoint digits (fuel : nat) (n : N) (acc : JsString) : JsString :=
  match fuel with
  | O => acc
  | S fuel' =>
      let acc' := (48 + n mod 10)%N :: acc in
      if (n / 10 =? 0)%N then acc' else digits fuel' (n / 10)%N acc'
  end.

(** The decimal numeral of a natural number. *)
Definition decimal (n : N) : JsString := digits (S (N.to_nat (N.log2 n))) n [].

(** ToString of an integral number below 10^21 in absolute value, which is
    how a template literal renders it. *)
Definition toString (i : Integral) : JsString :=
  match i with
  | INaN => str "NaN"
  | IInfinity s => str (if s then "-Infinity" else "Infinity")
  | IInt z =>
      match z with
      | Z0 => str "0"
      | Zpos p => decimal (Npos p)
      | Zneg p => str "-" ++ decimal (Npos p)
      end
  end.

End Number.

Import Number.

(* ================================================================== *)
(** * content-flagging.ts *)
(* ================================================================== *)

Local Open Scope float_scope.

(** [!s] for an optional string: true when it is absent or empty. *)
Definition falsy (s : option JsString) : bool :=
  match s with
  | None | Some [] => true
  | Some (_ :: _) => false
  end.

(** [s || ''] *)
Definition orEmpty (s : option JsString) : JsString :=
  match s with
  | Some s' => s'
  | None => []
  end.

(** [context?.previousFlags && context.previousFlags > 3] *)
Definition repeatOffender (context : option Context) : bool :=
  match context with
  | Some ctx =>
      match previousFlags ctx with
      | Some n => truthy n && (3 <? n)
      | None => false
      end
  | None => false
  end.

(** [context?.platform === 'twitter'] and [context?.audience === 'children'] *)
Definition jsStringEqb (s t : JsString) : bool :=
  if list_eq_dec N.eq_dec s t then true else false.

Definition platformIs (context : option Context) (name : string) : bool :=
  match context with
  | Some ctx =>
      match platform ctx with
      | Some p => jsStringEqb p (str name)
      | None => false
      end
  | None => false
  end.

Definition audienceIs (context : option Context) (name : string) : bool :=
  match context with
  | Some ctx =>
      match audience ctx with
      | Some a => jsStringEqb a (str name)
      | None => false
      end
  | None => false
  end.

Definition createCleanResult : FlagResult :=
  {| isFlagged := false;
     severity := low;
     reasons := [];
     confidence := 0;
     details := None |}.

Fixpoint findPatternMatches (text : JsString) (patterns : list RegExp)
  : list RegExpMatchArray :=
  match patterns with
  | [] => []
  | pattern :: rest =>
      match String_match text pattern with
      | Some m => m :: findPatternMatches text rest
      | None => findPatternMatches text rest
      end
  end.

Definition findPersonalInfoPatterns (text : JsString) : list RegExpMatchArray :=
  let personalInfoPatterns :=
    [ (* SSN *)
      rx [b; times 3 d; lit "-"; times 2 d; lit "-"; times 4 d; b];
      (* Phone *)
      rx [b; times 3 d; lit "-"; times 3 d; lit "-"; times 4 d; b];
      (* Email *)
      rx [b;
          plus (RClass (alnum ++ [CChar (chr "."); CChar (chr "_"); CChar (chr "%");
                                  CChar (chr "+"); CChar (chr "-")]));
          lit "@";
          plus (RClass (alnum ++ [CChar (chr "."); CChar (chr "-")]));
          lit ".";
          atLeast 2 (RClass [CRange (chr "A") (chr "Z"); CChar (chr "|");
                             CRange (chr "a") (chr "z")]);
          b];
      (* Credit card *)
      rx [b; times 4 d; opt (RClass [CSpace; CChar (chr "-")]);
          times 4 d; opt (RClass [CSpace; CChar (chr "-")]);
          times 4 d; opt (RClass [CSpace; CChar (chr "-")]);
          times 4 d; b] ] in
  findPatternMatches text personalInfoPatterns.

Definition calculateConfidence (matches : list RegExpMatchArray)
  (text : JsString) (context : option Context) : float :=
  if Nat.eqb (length matches) 0 then 0 else
  (* Base confidence from number of matches *)
  let confidence := Math_min (ofNat (length matches) * 0.2) 0.8 in
  (* Adjust based on text length *)
  let textLength := length text in
  let confidence :=
    if Nat.ltb textLength 100 then confidence + 0.2
    else if Nat.ltb 1000 textLength then confidence - 0.1
    else confidence in
  (* Context adjustments *)
  let confidence :=
    if repeatOffender context then confidence + 0.1 else confidence in
  Math_min confidence 1.0.

Definition severityMap (reason : FlagReason) : SeverityLevel :=
  match reason with
  | spam => low
  | hate_speech => high
  | harassment => high
  | violence => critical
  | adult_content => medium
  | misinformation => medium
  | copyright_violation => medium
  | phishing => high
  | malware => critical
  | inappropriate_language => low
  | personal_information => high
  end.

Definition getSeverityForReason (reason : FlagReason) (confidence : float)
  : SeverityLevel :=
  let baseSeverity := severityMap reason in
  (* Don't upgrade harassment to critical to match test expectations *)
  match reason with
  | harassment => high
  | _ =>
      (* Adjust severity based on confidence *)
      if 0.8 <? confidence then
        match baseSeverity with
        | low => medium
        | medium => high
        | high => critical
        | critical => baseSeverity
        end
      else baseSeverity
  end.

(** [severityOrder.indexOf] *)
Definition severityIndex (s : SeverityLevel) : nat :=
  match s with
  | low => 0
  | medium => 1
  | high => 2
  | critical => 3
  end.

Definition getHigherSeverity (a b : SeverityLevel) : SeverityLevel :=
  let aIndex := severityIndex a in
  let bIndex := severityIndex b in
  if Nat.ltb bIndex aIndex then a else b.

Definition applyContextAdjustments (confidence : float) (reasonCount : nat)
  (context : option Context) : float :=
  let adjusted := confidence in
  (* Multiple reasons increase confidence *)
  let adjusted :=
    if Nat.ltb 1 reasonCount
    then adjusted + 0.1 * ofNat (reasonCount - 1)
    else adjusted in
  (* Apply repeat offender boost even for low-confidence content *)
  let adjusted :=
    if repeatOffender context
    then Math_max (adjusted + 0.2) 0.4
    else adjusted in
  (* Platform-specific adjustments *)
  let adjusted :=
    if platformIs context "twitter" then adjusted + 0.05 else adjusted in
  (* Audience adjustments *)
  let adjusted :=
    if audienceIs context "children" then adjusted + 0.1 else adjusted in
  Math_min adjusted 1.0.

Definition generateDetails (reasons : list FlagReason) (confidence : float)
  : JsString :=
  if Nat.eqb (length reasons) 0 then str "Content appears to be clean" else
  let reasonText := join (str ", ") (map reasonName reasons) in
  let confidencePercent := Math_round (confidence * 100) in
  str "Detected " ++ reasonText ++ str " with "
    ++ toString confidencePercent ++ str "% confidence".

(** The variables that the loop of [analyzeContent] updates. *)
Record Tally : Type := mkTally {
  detectedReasons : list FlagReason;
  totalConfidence : float;
  maxSeverity : SeverityLevel
}.

(** One turn of the loop over the entries of [PATTERN_MAP]. *)
Definition checkReason (combinedText : JsString) (context : option Context)
  (acc : Tally) (entry : FlagReason * list RegExp) : Tally :=
  let (flagReason, patterns) := entry in
  let matches := findPatternMatches combinedText patterns in
  if Nat.ltb 0 (length matches) then
    let confidence := calculateConfidence matches combinedText context in
    let severity := getSeverityForReason flagReason confidence in
    {| detectedReasons := detectedReasons acc ++ [flagReason];
       totalConfidence := totalConfidence acc + confidence;
       maxSeverity := getHigherSeverity (maxSeverity acc) severity |}
  else acc.

(** The check for personal information exposure that follows the loop. *)
Definition checkPersonalInfo (combinedText : JsString) (acc : Tally) : Tally :=
  let personalInfoMatches := findPersonalInfoPatterns combinedText in
  if Nat.ltb 0 (length personalInfoMatches) then
    {| detectedReasons := detectedReasons acc ++ [personal_information];
       totalConfidence := totalConfidence acc + 0.9;
       maxSeverity := getHigherSeverity (maxSeverity acc) high |}
  else acc.

(** The unit that is scanned: [`${text} ${url}`.trim()]. *)
Definition combined (content : ContentItem) : JsString :=
  let textToAnalyze := orEmpty (text content) in
  let urlToAnalyze := orEmpty (url content) in
  trim (textToAnalyze ++ str " " ++ urlToAnalyze).

Definition analyzeContent (request : ContentFlaggingRequest) : FlagResult :=
  let content := content request in
  let context := context request in
  if falsy (text content) && falsy (url content) then createCleanResult else
  let combinedText := combined content in
  let acc := fold_left (checkReason combinedText context) PATTERN_MAP
                       {| detectedReasons := [];
                          totalConfidence := 0;
                          maxSeverity := low |} in
  let acc := checkPersonalInfo combinedText acc in
  let detectedReasons := detectedReasons acc in
  (* Apply context-based adjustments *)
  let adjustedConfidence :=
    applyContextAdjustments (totalConfidence acc) (length detectedReasons) context in
  let isFlagged := (0.3 <? adjustedConfidence) || Nat.ltb 0 (length detectedReasons) in
  {| isFlagged := isFlagged;
     severity := maxSeverity acc;
     reasons := detectedReasons;
     confidence := Math_min adjustedConfidence 1.0;
     details := Some (generateDetails detectedReasons adjustedConfidence) |}.

(** A request with a text and no context, as the tests build them. *)
Definition textRequest (s : string) (ctx : option Context) : ContentFlaggingRequest :=
  {| content := {| id := str "content_1"; userId := str "user_1"; type := text_;
                   text := Some (str s); url := None |};
     context := ctx |}.

(* ================================================================== *)
(** * Notions that the properties speak of *)
(* ================================================================== *)

(** The guard of [analyzeContent] lets the request through: a text or a url
    is there and is not the empty string. *)
Definition present (c : ContentItem) : bool :=
  negb (falsy (text c) && falsy (url c)).

(** A rule set is hit by a text: [matches.length > 0]. *)
Definition hit (combinedText : JsString) (patterns : list RegExp) : bool :=
  Nat.ltb 0 (length (findPatternMatches combinedText patterns)).

(** Some category is hit, in the catalog or in the personal-information
    check. *)
Definition anyHit (combinedText : JsString) : bool :=
  existsb (fun entry => hit combinedText (snd entry)) PATTERN_MAP
  || Nat.ltb 0 (length (findPersonalInfoPatterns combinedText)).

Definition reasonEqb (r1 r2 : FlagReason) : bool :=
  match r1, r2 with
  | spam, spam | hate_speech, hate_speech | harassment, harassment
  | violence, violence | adult_content, adult_content
  | misinformation, misinformation | copyright_violation, copyright_violation
  | phishing, phishing | malware, malware
  | inappropriate_language, inappropriate_language
  | personal_information, personal_information => true
  | _, _ => false
  end.

Definition FlagReason_eq_dec (r1 r2 : FlagReason) : {r1 = r2} + {r1 <> r2}.
Proof. decide equality. Defined.

(** [PATTERN_MAP[reason]] *)
Definition rulesFor (reason : FlagReason) : list RegExp :=
  match find (fun entry => reasonEqb (fst entry) reason) PATTERN_MAP with
  | Some entry => snd entry
  | None => []
  end.

(** The confidence that [analyzeContent] computes for one category on its
    own: [calculateConfidence] on the matches of that category's rules. *)
Definition soloConfidence (reason : FlagReason) (combinedText : JsString)
  (context : option Context) : float :=
  calculateConfidence (findPatternMatches combinedText (rulesFor reason))
                      combinedText context.

(** [s] occurs in [t] as a substring. *)
Definition contains (t s : JsString) : Prop :=
  exists pre post, t = pre ++ s ++ post.

(** * The values that the tally of [analyzeContent] can take

    [calculateConfidence] looks at its arguments through four tests only, and
    a rule set with [k] rules yields at most [k] matches, so the confidence of
    a category is one of finitely many numbers; the sums that the loop can
    build from them are enumerated, without repetition, by [reachable]. *)

(** Where the length of the text falls. *)
Inductive LengthClass : Type := Short | Medium | Long.

Definition lengthClass (textLength : nat) : LengthClass :=
  if Nat.ltb textLength 100 then Short
  else if Nat.ltb 1000 textLength then Long
  else Medium.

Definition lengthClasses : list LengthClass := [Short; Medium; Long].

(** [calculateConfidence] as a function of what it looks at. *)
Definition confidenceFor (n : nat) (len : LengthClass) (repeat : bool) : float :=
  if Nat.eqb n 0 then 0 else
  let confidence := Math_min (ofNat n * 0.2) 0.8 in
  let confidence :=
    match len with
    | Short => confidence + 0.2
    | Long => confidence - 0.1
    | Medium => confidence
    end in
  let confidence := if repeat then confidence + 0.1 else confidence in
  Math_min confidence 1.0.

(** [applyContextAdjustments] as a function of what it looks at. *)
Definition adjustFor (confidence : float) (reasonCount : nat)
  (repeat twitter children : bool) : float :=
  let adjusted :=
    if Nat.ltb 1 reasonCount
    then confidence + 0.1 * ofNat (reasonCount - 1)
    else confidence in
  let adjusted := if repeat then Math_max (adjusted + 0.2) 0.4 else adjusted in
  let adjusted := if twitter then adjusted + 0.05 else adjusted in
  let adjusted := if children then adjusted + 0.1 else adjusted in
  Math_min adjusted 1.0.

(** What one check contributes: nothing, or one more reason with its
    confidence. *)
Definition Outcome := option float.

(** The number of detected reasons and the total confidence. *)
Definition Summary := (nat * float)%type.

Definition summary (acc : Tally) : Summary :=
  (length (detectedReasons acc), totalConfidence acc).

Definition bump (s : Summary) (o : Outcome) : Summary :=
  match o with
  | Some confidence => (S (fst s), snd s + confidence)
  | None => s
  end.

Definition outcomeEqb (a b : Outcome) : bool :=
  match a, b with
  | Some x, Some y => PrimFloat.Leibniz.eqb x y
  | None, None => true
  | _, _ => false
  end.

Section Dedupe.
Context {A : Type}.
Variable eqb : A -> A -> bool.

Definition insertNew (a : A) (l : list A) : list A :=
  if existsb (eqb a) l then l else a :: l.

(** The elements of [xs] that are new to [ys], put before [ys]. *)
Definition addAll (xs ys : list A) : list A := fold_right insertNew ys xs.

Definition dedupe (l : list A) : list A := addAll l [].
End Dedupe.

(** A set of summaries: at index [k], the totals that can go with [k]
    reasons. *)
Definition Reach := list (list float).

Definition member (s : Summary) (r : Reach) : Prop :=
  In (snd s) (nth (fst s) r []).

Fixpoint union (r1 r2 : Reach) : Reach :=
  match r1, r2 with
  | [], _ => r2
  | _, [] => r1
  | xs :: r1', ys :: r2' =>
      addAll PrimFloat.Leibniz.eqb xs ys :: union r1' r2'
  end.

(** The summaries of [r] after one check with outcome [o]. *)
Definition step (o : Outcome) (r : Reach) : Reach :=
  match o with
  | Some confidence => [] :: map (map (fun total => total + confidence)) r
  | None => r
  end.

Definition extend (r : Reach) (os : list Outcome) : Reach :=
  fold_right (fun o acc => union (step o r) acc) [] os.

Definition reachable (options : list (list Outcome)) : Reach :=
  fold_left extend options [[0]].

(** The outcomes of a rule set with [k] rules when it is hit, and all its
    outcomes. *)
Definition hitOutcomes (k : nat) (len : LengthClass) (repeat : bool)
  : list Outcome :=
  dedupe outcomeEqb (map (fun n => Some (confidenceFor n len repeat)) (seq 1 k)).

Definition allOutcomes (k : nat) (len : LengthClass) (repeat : bool)
  : list Outcome :=
  None :: hitOutcomes k len repeat.

Definition personalInfoOutcomes : list Outcome := [None; Some 0.9].

(** The outcomes of every check in turn, those of the entries of
    [PATTERN_MAP] chosen by [choose]. *)
Definition outcomesBy (choose : FlagReason * list RegExp -> list Outcome)
  : list (list Outcome) :=
  map choose PATTERN_MAP ++ [personalInfoOutcomes].

Definition anyOutcome (len : LengthClass) (repeat : bool)
  (entry : FlagReason * list RegExp) : list Outcome :=
  allOutcomes (length (snd entry)) len repeat.

(** The outcomes when [reason] is hit with confidence [solo] and [other] is
    hit too. *)
Definition pairOutcome (reason other : FlagReason) (solo : float)
  (len : LengthClass) (repeat : bool) (entry : FlagReason * list RegExp)
  : list Outcome :=
  if reasonEqb (fst entry) reason then [Some solo]
  else if reasonEqb (fst entry) other
       then hitOutcomes (length (snd entry)) len repeat
       else allOutcomes (length (snd entry)) len repeat.

Definition bools : list bool := [true; false].

Fixpoint forallFrom (count : nat) (r : Reach) (p : nat -> float -> bool) : bool :=
  match r with
  | [] => true
  | totals :: r' => forallb (p count) totals && forallFrom (S count) r' p
  end.

(** [check] holds of the number of reasons and the final confidence, for
    every summary of [r] and every platform and audience. *)
Definition forallFinal (repeat : bool) (r : Reach)
  (check : nat -> float -> bool) : bool :=
  forallFrom 0 r (fun count total =>
    forallb (fun twitter =>
      forallb (fun children =>
        check count
              (Math_min (adjustFor total count repeat twitter children) 1.0))
        bools) bools).

(** [check] holds whatever the length of the text. *)
Definition forallLengths (check : LengthClass -> bool) : bool :=
  forallb check lengthClasses.

(** The outcome of checking one rule set on a text, and that of the
    personal-information check. *)
Definition outcome (combinedText : JsString) (context : option Context)
  (patterns : list RegExp) : Outcome :=
  if hit combinedText patterns
  then Some (calculateConfidence (findPatternMatches combinedText patterns)
                                 combinedText context)
  else None.

Definition personalInfoOutcome (combinedText : JsString) : Outcome :=
  if Nat.ltb 0 (length (findPersonalInfoPatterns combinedText))
  then Some 0.9 else None.

(** The tally when the loop and the personal-information check are done. *)
Definition initialTally : Tally :=
  {| detectedReasons := []; totalConfidence := 0; maxSeverity := low |}.

Definition finalTally (combinedText : JsString) (context : option Context) : Tally :=
  checkPersonalInfo combinedText
    (fold_left (checkReason combinedText context) PATTERN_MAP initialTally).

(** The summary that the specification describes for [details]. *)
Definition describedDetails (reasons : list FlagReason) (confidence : float)
  : JsString :=
  match reasons with
  | [] => str "Content appears to be clean"
  | _ :: _ =>
      str "Detected " ++ join (str ", ") (map reasonName reasons)
        ++ str " with " ++ toString (Math_round (confidence * 100))
        ++ str "% confidence"
  end.

(** Two categories hit together: whatever the confidence [solo] of
    [reason] on its own, [other] being hit too, there are at least two
    reasons, and the final confidence is at least [solo], and above it when
    [solo] is below 1. *)
Definition pairCheck (reason other : FlagReason) (len : LengthClass)
  (repeat : bool) : bool :=
  forallb (fun o =>
    match o with
    | Some solo =>
        forallFinal repeat
          (reachable (outcomesBy (pairOutcome reason other solo len repeat)))
          (fun count c =>
             Nat.ltb 1 count && (solo <=? c)
             && (if solo <? 1 then solo <? c else true))
    | None => true
    end)
    (hitOutcomes (length (rulesFor reason)) len repeat).

(** ** Requests of the tests *)

(** A request with a url and no text. *)
Definition urlRequest (s : string) : ContentFlaggingRequest :=
  {| content := {| id := str "content_14"; userId := str "user_14"; type := link;
                   text := None; url := Some (str s) |};
     context := None |}.

(** [expect(reasons).toContain(reason)] *)
Definition toContain (reasons : list FlagReason) (reason : FlagReason) : bool :=
  existsb (reasonEqb reason) reasons.

(** [patterns.some((pattern) => pattern.test(text))] for each of [texts] *)
Definition someMatchEach (patterns : list RegExp) (texts : list string) : bool :=
  forallb (fun t => existsb (fun pattern => test pattern (str t)) patterns) texts.

(** The text of the test for personal information. *)
Definition ssnAndPhone : string :=
  "My SSN is 123-45-6789 and my phone is 555-123-4567".


(** The context of a user with five earlier flags. *)
Definition fiveFlags : option Context :=
  Some {| platform := None; audience := None; previousFlags := Some 5 |}.

(** A request with neither text nor url. *)
Definition emptyRequest (ctx : option Context) : ContentFlaggingRequest :=
  {| content := {| id := str "content_1"; userId := str "user_1"; type := text_;
                   text := None; url := None |};
     context := ctx |}.

(* ================================================================== *)
(** * Notions for the further properties *)
(* ================================================================== *)

(** The personal-information check finds a match. *)
Definition personalInfoHit (combinedText : JsString) : bool :=
  Nat.ltb 0 (length (findPersonalInfoPatterns combinedText)).

(** The entries of the catalog that a text hits, in the order of the
    catalog. *)
Definition hitEntries (combinedText : JsString) : list (FlagReason * list RegExp) :=
  filter (fun entry => hit combinedText (snd entry)) PATTERN_MAP.

(** The severity that the loop gives to an entry. *)
Definition severityOfEntry (combinedText : JsString) (context : option Context)
  (entry : FlagReason * list RegExp) : SeverityLevel :=
  getSeverityForReason (fst entry)
    (calculateConfidence (findPatternMatches combinedText (snd entry))
                         combinedText context).



(** The first and the last code unit of a text are not white space. *)
Definition noSpaceAtEnds (s : JsString) : Prop :=
  match s with
  | [] => True
  | c :: _ => isWhiteSpace c = false /\ isWhiteSpace (last s c) = false
  end.

(** The categories, as [PATTERN_MAP] lists them. *)
Definition allReasons : list FlagReason := map fst PATTERN_MAP.

(** The outcomes of every check in turn, with those of the
    personal-information check given as well. *)
Definition outcomesWith (choose : FlagReason * list RegExp -> list Outcome)
  (personalInfo : list Outcome) : list (list Outcome) :=
  map choose PATTERN_MAP ++ [personalInfo].

(** The outcomes when [reason] is hit with confidence [solo]. *)
Definition soloOutcome (reason : FlagReason) (solo : float)
  (len : LengthClass) (repeat : bool) (entry : FlagReason * list RegExp)
  : list Outcome :=
  if reasonEqb (fst entry) reason then [Some solo]
  else allOutcomes (length (snd entry)) len repeat.

(** The confidence of [reason] on its own lies between 0.1 and 1, and the
    final confidence is not below it. *)
Definition soloCheck (reason : FlagReason) (len : LengthClass) (repeat : bool)
  : bool :=
  forallb (fun o =>
    match o with
    | Some solo =>
        (0.1 <=? solo) && (solo <=? 1)
        && forallFinal repeat
             (reachable (outcomesBy (soloOutcome reason solo len repeat)))
             (fun _ c => solo <=? c)
    | None => true
    end)
    (hitOutcomes (length (rulesFor reason)) len repeat).

(** The outcomes when the rules for personal information match: the catalog
    entry is hit, and so is the check that follows the loop. *)
Definition personalInfoFound (len : LengthClass) (repeat : bool)
  (entry : FlagReason * list RegExp) : list Outcome :=
  if reasonEqb (fst entry) personal_information
  then hitOutcomes (length (snd entry)) len repeat
  else allOutcomes (length (snd entry)) len repeat.

Abbreviation personalInfoCheck len repeat :=
  (forallFinal repeat
     (fold_left extend (outcomesWith (personalInfoFound len repeat) [Some 0.9])
                [[0]])
     (fun count c => Nat.ltb 1 count && PrimFloat.Leibniz.eqb c 1)).

(** The percentage that [generateDetails] writes. *)
Definition percentCheck (c : float) : bool :=
  match Math_round (c * 100) with
  | IInt z => ((0 <=? z) && (z <=? 100))%Z
  | _ => false
  end.

(** ** The tallies of one text without and with a context

    The same enumeration for two runs side by side, on the same text: each
    summary holds the number of reasons, which the context does not change,
    the total without context and the total with it. *)

Definition Totals := (float * float)%type.

Definition totalsEqb (a b : Totals) : bool :=
  PrimFloat.Leibniz.eqb (fst a) (fst b) && PrimFloat.Leibniz.eqb (snd a) (snd b).

Definition Outcome2 := option Totals.

Definition outcome2Eqb (a b : Outcome2) : bool :=
  match a, b with
  | Some x, Some y => totalsEqb x y
  | None, None => true
  | _, _ => false
  end.

Definition Summary2 := (nat * Totals)%type.

Definition bump2 (s : Summary2) (o : Outcome2) : Summary2 :=
  match o with
  | Some c => (S (fst s), (fst (snd s) + fst c, snd (snd s) + snd c))
  | None => s
  end.

Definition Reach2 := list (list Totals).

Definition member2 (s : Summary2) (r : Reach2) : Prop :=
  In (snd s) (nth (fst s) r []).

Fixpoint union2 (r1 r2 : Reach2) : Reach2 :=
  match r1, r2 with
  | [], _ => r2
  | _, [] => r1
  | xs :: r1', ys :: r2' => addAll totalsEqb xs ys :: union2 r1' r2'
  end.

Definition step2 (o : Outcome2) (r : Reach2) : Reach2 :=
  match o with
  | Some c => [] :: map (map (fun t => (fst t + fst c, snd t + snd c))) r
  | None => r
  end.

Definition extend2 (r : Reach2) (os : list Outcome2) : Reach2 :=
  fold_right (fun o acc => union2 (step2 o r) acc) [] os.

Definition reachable2 (options : list (list Outcome2)) : Reach2 :=
  fold_left extend2 options [[(0, 0)]].

Definition allOutcomes2 (k : nat) (len : LengthClass) (repeat : bool)
  : list Outcome2 :=
  None :: dedupe outcome2Eqb
            (map (fun n => Some (confidenceFor n len false,
                                 confidenceFor n len repeat))
                 (seq 1 k)).

Definition outcomes2 (len : LengthClass) (repeat : bool) : list (list Outcome2) :=
  map (fun entry => allOutcomes2 (length (snd entry)) len repeat) PATTERN_MAP
    ++ [[None; Some (0.9, 0.9)]].

Definition outcome2 (combinedText : JsString) (context : option Context)
  (patterns : list RegExp) : Outcome2 :=
  if hit combinedText patterns
  then Some (calculateConfidence (findPatternMatches combinedText patterns)
                                 combinedText None,
             calculateConfidence (findPatternMatches combinedText patterns)
                                 combinedText context)
  else None.

Definition personalInfoOutcome2 (combinedText : JsString) : Outcome2 :=
  if Nat.ltb 0 (length (findPersonalInfoPatterns combinedText))
  then Some (0.9, 0.9) else None.

Fixpoint forallFrom2 (count : nat) (r : Reach2) (p : nat -> Totals -> bool) : bool :=
  match r with
  | [] => true
  | totals :: r' => forallb (p count) totals && forallFrom2 (S count) r' p
  end.

(** The final confidence with the context is not below the one without,
    for every pair of totals and every platform and audience. *)
Abbreviation contextCheck len repeat :=
  (forallFrom2 0 (reachable2 (outcomes2 len repeat)) (fun count t =>
     forallb (fun twitter =>
       forallb (fun children =>
         Math_min (adjustFor (fst t) count false false false) 1.0
         <=? Math_min (adjustFor (snd t) count repeat twitter children) 1.0)
         bools) bools)).

(** With the context the severity that a category gets is not below the one
    it gets without, whatever the number of its matches. *)
Abbreviation severityCheck len repeat :=
  (forallb (fun entry =>
     forallb (fun n =>
       Nat.leb
         (severityIndex (getSeverityForReason (fst entry)
                           (confidenceFor n len false)))
         (severityIndex (getSeverityForReason (fst entry)
                           (confidenceFor n len repeat))))
       (seq 1 (length (snd entry))))
     PATTERN_MAP).

(* ================================================================== *)
(** * server.ts *)
(* ================================================================== *)

(** The two POST handlers, from the parsed body of the request to what they
    do with it: answer with an error, or build a [ContentFlaggingRequest]
    and hand it to [processContentFlaggingRequest], whose result they send
    back. *)
Module Server.

Local Open Scope nat_scope.

(** The values that a parsed JSON body is made of, and [undefined], which
    reading a missing property yields. *)
Inductive JsValue : Type :=
| VUndefined
| VNull
| VBool (b : bool)
| VNumber (x : float)
| VString (s : JsString)
| VArray (items : list JsValue)
| VObject (properties : list (JsString * JsValue)).

(** ToBoolean *)
Definition truthyValue (v : JsValue) : bool :=
  match v with
  | VUndefined | VNull => false
  | VBool b => b
  | VNumber x => truthy x
  | VString [] => false
  | VString (_ :: _) => true
  | VArray _ | VObject _ => true
  end.

Fixpoint ownProperty (key : JsString) (properties : list (JsString * JsValue))
  : JsValue :=
  match properties with
  | [] => VUndefined
  | (k, v) :: rest => if jsStringEqb k key then v else ownProperty key rest
  end.

(** [v.key], for the keys that the handlers read ([content], [id], [text]
    and so on): an own property of an object, whose properties are listed
    with the one that counts first, and [undefined] on an array, a
    string, a number or a boolean, whose prototypes define none of them. The
    handlers read a property of a value only after they have found it
    truthy, so never of [null] or [undefined]; the body itself is the
    exception, and the handlers below treat it apart. *)
Definition get (v : JsValue) (key : string) : JsValue :=
  match v with
  | VObject properties => ownProperty (str key) properties
  | _ => VUndefined
  end.

(** [...(v && {key: v})]: the property is there when [v] is truthy. *)
Definition whenTruthy (v : JsValue) : option JsValue :=
  if truthyValue v then Some v else None.

(** [...(v !== undefined && {key: v})] *)
Definition whenDefined (v : JsValue) : option JsValue :=
  match v with
  | VUndefined => None
  | _ => Some v
  end.

(** The [ContentFlaggingRequest] that a handler builds, with the values as
    they came. *)
Record BuiltContent : Type := mkBuiltContent {
  builtId : JsValue;
  builtUserId : JsValue;
  builtType : JsValue;
  builtText : option JsValue;
  builtUrl : option JsValue;
  builtMetadata : option JsValue
}.

Record BuiltContext : Type := mkBuiltContext {
  builtPlatform : option JsValue;
  builtAudience : option JsValue;
  builtPreviousFlags : option JsValue
}.

Record BuiltRequest : Type := mkBuiltRequest {
  builtContent : BuiltContent;
  builtContext : option BuiltContext
}.

(** [{ error, code }] *)
Record ErrorBody : Type := mkErrorBody {
  error : JsString;
  code : JsString
}.

Definition validTypes : list JsString :=
  [str "text"; str "image"; str "video"; str "link"].

(** [validTypes.includes(v)] *)
Definition includes (types : list JsString) (v : JsValue) : bool :=
  match v with
  | VString s => existsb (jsStringEqb s) types
  | _ => false
  end.

(** What the handler of [POST /api/flag-content] does. *)
Inductive Reply : Type :=
| Rejected (status : nat) (body : ErrorBody)
    (* res.status(status).json(body) *)
| Forwarded (request : BuiltRequest)
    (* res.json(processContentFlaggingRequest(request)) *)
| InternalError.
    (* the catch block: status 500, code INTERNAL_ERROR *)

(** What is thrown inside the callback of the batch handler: an [Error] made
    with a message, the TypeError of destructuring [null] or [undefined], or
    what [processContentFlaggingRequest] threw on the request it got. *)
Inductive Thrown : Type :=
| ErrorWith (message : JsString)
| TypeError
| ThrownByEngine (request : BuiltRequest).

(** One element of [responses]: the response of
    [processContentFlaggingRequest], or the object with an [error] property
    that the catch block builds for the element at [index]. *)
Inductive ItemReply : Type :=
| ItemForwarded (request : BuiltRequest)
| ItemError (index : nat) (thrown : Thrown).

(** [`Request ${index}: ${what}`] *)
Definition requestMessage (index : nat) (what : string) : JsString :=
  str "Request " ++ decimal (N.of_nat index) ++ str ": " ++ str what.

(** ['error' in r] *)
Definition hasError (r : ItemReply) : bool :=
  match r with
  | ItemError _ _ => true
  | ItemForwarded _ => false
  end.

(** The body of the answer of the batch handler, without its [batchId]. *)
Record BatchBody : Type := mkBatchBody {
  totalRequests : nat;
  successfulRequests : nat;
  failedRequests : nat;
  responses : list ItemReply
}.

Inductive BatchReply : Type :=
| BatchRejected (status : nat) (body : ErrorBody)
| BatchAnswered (body : BatchBody)
| BatchInternalError.

Section Handlers.

(** Whether [processContentFlaggingRequest] returns on a request that a
    handler has built: the values of a body need not have the types of
    [ContentFlaggingRequest], and the call, which both handlers make inside
    their [try], throws on some that do not (a [text] that is an object with
    a [toString] property, say). *)
Variable engineReturns : BuiltRequest -> bool.

Definition postFlagContent (body : JsValue) : Reply :=
  match body with
  | VUndefined | VNull => InternalError (* the destructuring throws *)
  | _ =>
      let content := get body "content" in
      let context := get body "context" in
      (* Validate required fields *)
      if negb (truthyValue content) then
        Rejected 400 {| error := str "Missing required field: content";
                        code := str "MISSING_CONTENT" |}
      else if negb (truthyValue (get content "id"))
              || negb (truthyValue (get content "userId"))
              || negb (truthyValue (get content "type")) then
        Rejected 400 {| error := str "Content must include id, userId, and type fields";
                        code := str "INVALID_CONTENT_FORMAT" |}
      (* Validate content type *)
      else if negb (includes validTypes (get content "type")) then
        Rejected 400 {| error := str "Invalid content type. Must be one of: "
                                   ++ join (str ", ") validTypes;
                        code := str "INVALID_CONTENT_TYPE" |}
      (* Validate that content has either text or url *)
      else if negb (truthyValue (get content "text"))
              && negb (truthyValue (get content "url")) then
        Rejected 400 {| error := str "Content must include either text or url field";
                        code := str "MISSING_CONTENT_DATA" |}
      else
        (* Create the request object *)
        let flaggingRequest :=
          {| builtContent :=
               {| builtId := get content "id";
                  builtUserId := get content "userId";
                  builtType := get content "type";
                  builtText := whenTruthy (get content "text");
                  builtUrl := whenTruthy (get content "url");
                  builtMetadata := whenTruthy (get content "metadata") |};
             builtContext :=
               if truthyValue context then
                 Some {| builtPlatform := whenTruthy (get context "platform");
                         builtAudience := whenTruthy (get context "audience");
                         builtPreviousFlags :=
                           whenDefined (get context "previousFlags") |}
               else None |} in
        (* Process the request *)
        if engineReturns flaggingRequest then Forwarded flaggingRequest
        else InternalError
  end.

(** The callback of [requests.map]. *)
Definition batchItem (requestItem : JsValue) (index : nat) : ItemReply :=
  match requestItem with
  | VUndefined | VNull => ItemError index TypeError
  | _ =>
      let content := get requestItem "content" in
      let context := get requestItem "context" in
      if negb (truthyValue content) then
        ItemError index
          (ErrorWith (requestMessage index "Missing required field: content"))
      else if negb (truthyValue (get content "id"))
              || negb (truthyValue (get content "userId"))
              || negb (truthyValue (get content "type")) then
        ItemError index
          (ErrorWith (requestMessage index
                        "Content must include id, userId, and type fields"))
      else if negb (includes validTypes (get content "type")) then
        ItemError index
          (ErrorWith (requestMessage index "Invalid content type"))
      else if negb (truthyValue (get content "text"))
              && negb (truthyValue (get content "url")) then
        ItemError index
          (ErrorWith (requestMessage index
                        "Content must include either text or url field"))
      else
        let flaggingRequest :=
          {| builtContent :=
               {| builtId := get content "id";
                  builtUserId := get content "userId";
                  builtType := get content "type";
                  builtText := whenTruthy (get content "text");
                  builtUrl := whenTruthy (get content "url");
                  builtMetadata := whenTruthy (get content "metadata") |};
             builtContext :=
               if truthyValue context then
                 Some {| builtPlatform := whenTruthy (get context "platform");
                         builtAudience := whenTruthy (get context "audience");
                         builtPreviousFlags :=
                           whenDefined (get context "previousFlags") |}
               else None |} in
        if engineReturns flaggingRequest then ItemForwarded flaggingRequest
        else ItemError index (ThrownByEngine flaggingRequest)
  end.

(** [requests.map(callback)]: the callback gets each element and its
    index. *)
Fixpoint mapFrom (index : nat) (requests : list JsValue) : list ItemReply :=
  match requests with
  | [] => []
  | requestItem :: rest => batchItem requestItem index :: mapFrom (S index) rest
  end.

Definition postFlagContentBatch (body : JsValue) : BatchReply :=
  match body with
  | VUndefined | VNull => BatchInternalError (* the destructuring throws *)
  | _ =>
      match get body "requests" with
      | VArray requests =>
          if Nat.eqb (length requests) 0 then
            BatchRejected 400 {| error := str "Requests array cannot be empty";
                                 code := str "EMPTY_BATCH" |}
          else if Nat.ltb 100 (length requests) then
            BatchRejected 400 {| error := str "Batch size cannot exceed 100 requests";
                                 code := str "BATCH_SIZE_EXCEEDED" |}
          else
            let responses := mapFrom 0 requests in
            BatchAnswered
              {| totalRequests := length requests;
                 successfulRequests :=
                   length (filter (fun r => negb (hasError r)) responses);
                 failedRequests := length (filter hasError responses);
                 responses := responses |}
      | _ =>
          (* !Array.isArray(requests) *)
          BatchRejected 400 {| error := str "Requests must be an array";
                               code := str "INVALID_BATCH_FORMAT" |}
      end
  end.

End Handlers.

(** A built request whose values have the types that [types.ts] declares,
    and the [ContentFlaggingRequest] that it then is. *)
Definition typeName (t : ContentType) : JsString :=
  str match t with
      | text_ => "text"
      | image => "image"
      | video => "video"
      | link => "link"
      end.

Definition wellTyped (built : BuiltRequest) (request : ContentFlaggingRequest)
  : Prop :=
  builtId (builtContent built) = VString (id (content request)) /\
  builtUserId (builtContent built) = VString (userId (content request)) /\
  builtType (builtContent built) = VString (typeName (type (content request))) /\
  builtText (builtContent built) = option_map VString (text (content request)) /\
  builtUrl (builtContent built) = option_map VString (url (content request)) /\
  builtContext built =
    option_map (fun ctx =>
      {| builtPlatform := option_map VString (platform ctx);
         builtAudience := option_map VString (audience ctx);
         builtPreviousFlags := option_map VNumber (previousFlags ctx) |})
      (context request).

(** The body that the tests of the server send: a content of type text,
    and no context. *)
Definition textBody (s : string) : JsValue :=
  VObject [(str "content",
            VObject [(str "id", VString (str "content_1"));
                     (str "userId", VString (str "user_1"));
                     (str "type", VString (str "text"));
                     (str "text", VString (str s))])].

End Server.

(** The rank of a length class: a shorter text has a lower rank. *)
Definition lengthRank (len : LengthClass) : nat :=
  match len with
  | Short => 0
  | Medium => 1
  | Long => 2
  end.

(** The largest number of rules that a category has. *)
Definition largestRuleSet : nat :=
  list_max (map (fun entry => length (snd entry)) PATTERN_MAP).

(** [calculateConfidence] does not fall when the number of matches grows or
    when the text gets shorter. *)
Definition monotoneCheck (repeat : bool) : bool :=
  forallb (fun len1 =>
    forallb (fun len2 =>
      forallb (fun n1 =>
        forallb (fun n2 =>
          negb (Nat.leb n1 n2 && Nat.leb (lengthRank len1) (lengthRank len2))
          || (confidenceFor n1 len2 repeat <=? confidenceFor n2 len1 repeat))
          (seq 0 (S largestRuleSet)))
        (seq 0 (S largestRuleSet)))
      lengthClasses)
    lengthClasses.

(* ================================================================== *)
(** * Lemmas *)
(* ================================================================== *)

(** ** The two paths of [analyzeContent] *)

Lemma analyzeContent_absent (request : ContentFlaggingRequest) :
  present (content request) = false ->
  analyzeContent request = createCleanResult.
Proof.
  unfold present, analyzeContent. intros H.
  apply negb_false_iff in H. rewrite H. reflexivity.
Qed.

Lemma analyzeContent_present (request : ContentFlaggingRequest) :
  present (content request) = true ->
  let acc := finalTally (combined (content request)) (context request) in
  let adjusted :=
    applyContextAdjustments (totalConfidence acc)
      (length (detectedReasons acc)) (context request) in
  analyzeContent request =
  {| isFlagged := (0.3 <? adjusted) || Nat.ltb 0 (length (detectedReasons acc));
     severity := maxSeverity acc;
     reasons := detectedReasons acc;
     confidence := Math_min adjusted 1.0;
     details := Some (generateDetails (detectedReasons acc) adjusted) |}.
Proof.
  unfold present, analyzeContent. intros H.
  apply negb_true_iff in H. rewrite H. reflexivity.
Qed.

Lemma applyContextAdjustments_adjustFor confidence reasonCount context :
  applyContextAdjustments confidence reasonCount context =
  adjustFor confidence reasonCount (repeatOffender context)
            (platformIs context "twitter") (audienceIs context "children").
Proof. reflexivity. Qed.

Lemma calculateConfidence_confidenceFor matches combinedText context :
  calculateConfidence matches combinedText context =
  confidenceFor (length matches) (lengthClass (length combinedText))
                (repeatOffender context).
Proof.
  unfold calculateConfidence, confidenceFor, lengthClass.
  destruct (Nat.ltb (length combinedText) 100); [reflexivity|].
  destruct (Nat.ltb 1000 (length combinedText)); reflexivity.
Qed.

(** ** The iteration budget of RepeatMatcher *)

Section Budget.
Local Open Scope nat_scope.

Lemma later_refl x : later x x.
Proof. unfold later. lia. Qed.

Lemma later_trans x y z : later x y -> later y z -> later x z.
Proof. unfold later. lia. Qed.

Lemma later_advance x ch rest :
  after x = ch :: rest -> later x (advance x ch rest).
Proof. unfold later, advance, endIndex. intros ->. simpl. lia. Qed.

Lemma later_advanceBy n : forall x, later x (advanceBy n x).
Proof.
  induction n as [|n IH]; intros x; simpl.
  - destruct (after x); apply later_refl.
  - destruct (after x) as [|ch rest] eqn:E; [apply later_refl|].
    eapply later_trans; [apply (later_advance x ch rest E) | apply IH].
Qed.

Lemma RepeatMatcher_unfold m groups budget min max x c :
  RepeatMatcher m groups (S budget) min max x c =
  match max with
  | Some O => c x
  | _ =>
      let d : Continuation := fun y =>
        if Nat.eqb min 0 && Nat.eqb (endIndex y) (endIndex x)
        then None
        else RepeatMatcher m groups budget (pred min) (decr max) y c in
      let xr := mkMState (before x) (after x)
                         (clearCaptures groups (captures x)) in
      if Nat.eqb min 0 then
        match m xr d with
        | Some z => Some z
        | None => c x
        end
      else m xr d
  end.
Proof. reflexivity. Qed.

(** With a budget of at least [min + length (after x) + 1], RepeatMatcher
    does not depend on the budget, nor on what the continuation does on
    states that are not later than [x]. *)
Lemma RepeatMatcher_ext m groups :
  respects m ->
  forall b1 b2 min max x c1 c2,
  min + length (after x) + 1 <= b1 ->
  min + length (after x) + 1 <= b2 ->
  (forall y, later x y -> c1 y = c2 y) ->
  RepeatMatcher m groups b1 min max x c1 = RepeatMatcher m groups b2 min max x c2.
Proof.
  intros Hm. induction b1 as [|b1 IH]; intros b2 min max x c1 c2 H1 H2 Hc; [lia|].
  destruct b2 as [|b2]; [lia|].
  rewrite !RepeatMatcher_unfold.
  assert (Hstep : forall max',
    m (mkMState (before x) (after x) (clearCaptures groups (captures x)))
      (fun y => if Nat.eqb min 0 && Nat.eqb (endIndex y) (endIndex x)
                then None
                else RepeatMatcher m groups b1 (pred min) max' y c1) =
    m (mkMState (before x) (after x) (clearCaptures groups (captures x)))
      (fun y => if Nat.eqb min 0 && Nat.eqb (endIndex y) (endIndex x)
                then None
                else RepeatMatcher m groups b2 (pred min) max' y c2)).
  { intros max'. apply Hm. intros y Hy.
    destruct (Nat.eqb min 0 && Nat.eqb (endIndex y) (endIndex x)) eqn:E;
      [reflexivity|].
    assert (Hlt : pred min + length (after y) + 1 <= min + length (after x)).
    { unfold later, endIndex in Hy. simpl in Hy.
      apply andb_false_iff in E. destruct E as [E|E];
        apply Nat.eqb_neq in E; unfold endIndex in *; lia. }
    apply IH; [lia | lia |].
    intros z Hz. apply Hc. apply (later_trans x y z); [|exact Hz].
    unfold later, endIndex in *. simpl in Hy. exact Hy. }
  pose proof (Hc x (later_refl x)) as Hx.
  destruct max as [[|k]|]; cbv zeta; [exact Hx | |];
    rewrite Hstep, Hx; reflexivity.
Qed.

Lemma matcher_respects ic r : respects (matcher ic r).
Proof.
  induction r as [| a | | cs | r1 IH1 r2 IH2 | r1 IH1 r2 IH2 | r IH min max
                  | i r IH | i | | r IH];
    intros x c1 c2 Hc; cbn [matcher].
  - apply Hc, later_refl.
  - destruct (after x) as [|ch rest] eqn:E; [reflexivity|].
    destruct (charEq ic a ch); [apply Hc, later_advance, E | reflexivity].
  - destruct (after x) as [|ch rest] eqn:E; [reflexivity|].
    destruct (isLineTerminator ch); [reflexivity | apply Hc, later_advance, E].
  - destruct (after x) as [|ch rest] eqn:E; [reflexivity|].
    destruct (classMatches ic cs ch); [apply Hc, later_advance, E | reflexivity].
  - apply IH1. intros y Hy. apply IH2. intros z Hz.
    apply Hc, (later_trans x y z Hy Hz).
  - rewrite (IH1 x c1 c2 Hc), (IH2 x c1 c2 Hc). reflexivity.
  - apply RepeatMatcher_ext; [exact IH | lia | lia | exact Hc].
  - apply IH. intros y Hy. apply Hc. exact Hy.
  - destruct (lookupCapture i (captures x)) as [s|]; [|apply Hc, later_refl].
    destruct (prefixEq ic s (after x)); [apply Hc, later_advanceBy | reflexivity].
  - destruct (xorb _ _); [apply Hc, later_refl | reflexivity].
  - destruct (matcher ic r x Some); [reflexivity | apply Hc, later_refl].
Qed.

(** The budget that [matcher] gives to RepeatMatcher is never used up: a
    larger one yields the same result. *)
Lemma RepeatMatcher_budget ic r extra min max x c :
  RepeatMatcher (matcher ic r) (groupsOf r)
                (extra + (min + length (after x) + 1)) min max x c =
  RepeatMatcher (matcher ic r) (groupsOf r)
                (min + length (after x) + 1) min max x c.
Proof.
  apply RepeatMatcher_ext; [apply matcher_respects | lia | lia | reflexivity].
Qed.

End Budget.

(** ** Matches *)

Lemma findPatternMatches_length combinedText patterns :
  length (findPatternMatches combinedText patterns) <= length patterns.
Proof.
  induction patterns as [|pattern rest IH]; simpl.
  - lia.
  - destruct (String_match combinedText pattern); simpl; lia.
Qed.

Lemma findPatternMatches_hit combinedText pattern patterns :
  In pattern patterns ->
  test pattern combinedText = true ->
  hit combinedText patterns = true.
Proof.
  unfold hit, test. intros Hin Ht. apply Nat.ltb_lt.
  induction patterns as [|p rest IH]; simpl in *.
  - contradiction.
  - destruct Hin as [->|Hin].
    + destruct (String_match combinedText pattern); [simpl; lia | discriminate].
    + specialize (IH Hin). destruct (String_match combinedText p); simpl; lia.
Qed.

(** ** Lists without repetition *)

Section DedupeFacts.
Context {A : Type}.
Variable eqb : A -> A -> bool.
Hypothesis eqb_eq : forall a b, eqb a b = true -> a = b.

Lemma insertNew_In a x l :
  x = a \/ In x l -> In x (insertNew eqb a l).
Proof.
  unfold insertNew. destruct (existsb (eqb a) l) eqn:E.
  - intros [->|H]; [|exact H].
    apply existsb_exists in E. destruct E as [y [Hy Hay]].
    apply eqb_eq in Hay. subst y. exact Hy.
  - intros [->|H]; [left; reflexivity | right; exact H].
Qed.

Lemma addAll_In x xs ys : In x xs \/ In x ys -> In x (addAll eqb xs ys).
Proof.
  induction xs as [|a xs IH]; simpl.
  - intros [[]|H]; exact H.
  - intros [[<-|H]|H]; apply insertNew_In; auto.
Qed.

Lemma dedupe_In x l : In x l -> In x (dedupe eqb l).
Proof. intros H. apply addAll_In. left. exact H. Qed.
End DedupeFacts.

Lemma floatEqb_eq (a b : float) : PrimFloat.Leibniz.eqb a b = true -> a = b.
Proof. apply FloatAxioms.Leibniz.eqb_spec. Qed.

Lemma outcomeEqb_eq (a b : Outcome) : outcomeEqb a b = true -> a = b.
Proof.
  destruct a as [x|], b as [y|]; simpl; try discriminate; [|reflexivity].
  intros H. apply floatEqb_eq in H. subst. reflexivity.
Qed.

(** ** The summary of the tally is a reachable one *)

Lemma union_nth (total : float) (r1 : Reach) :
  forall (r2 : Reach) (k : nat),
  In total (nth k r1 []) \/ In total (nth k r2 []) ->
  In total (nth k (union r1 r2) []).
Proof.
  induction r1 as [|xs r1 IH]; intros r2 k H.
  - destruct H as [H|H]; [destruct k; contradiction | exact H].
  - destruct r2 as [|ys r2].
    + destruct H as [H|H]; [exact H | destruct k; contradiction].
    + destruct k as [|k]; simpl in *.
      * apply (addAll_In _ floatEqb_eq). exact H.
      * apply IH. exact H.
Qed.

Lemma step_member s o r : member s r -> member (bump s o) (step o r).
Proof.
  destruct s as [k total], o as [confidence|]; unfold member; simpl; [|tauto].
  intros H.
  change (@nil float) with (map (fun t => t + confidence) []) at 1.
  rewrite (map_nth (map (fun t => t + confidence))).
  apply (in_map (fun t => t + confidence)). exact H.
Qed.

Lemma extend_member s o r os :
  member s r -> In o os -> member (bump s o) (extend r os).
Proof.
  intros Hs. unfold extend.
  induction os as [|o' os IH]; simpl; [contradiction|].
  intros [->|Ho]; apply union_nth.
  - left. apply step_member. exact Hs.
  - right. apply IH. exact Ho.
Qed.

Lemma reachable_member (os : list Outcome) :
  forall (options : list (list Outcome)) (r : Reach) (s : Summary),
  Forall2 (@In Outcome) os options ->
  member s r ->
  member (fold_left bump os s) (fold_left extend options r).
Proof.
  induction os as [|o os IH]; intros options r s H Hs; inversion H; subst; simpl.
  - exact Hs.
  - apply IH; [assumption|]. apply extend_member; assumption.
Qed.

Lemma forallFrom_nth (p : nat -> float -> bool) (total : float) (r : Reach) :
  forall count k,
  forallFrom count r p = true ->
  In total (nth k r []) ->
  p (count + k)%nat total = true.
Proof.
  induction r as [|totals r IH]; intros count k H Hin.
  - destruct k; contradiction.
  - simpl in H. apply andb_true_iff in H. destruct H as [H1 H2].
    destruct k as [|k]; simpl in Hin.
    + rewrite Nat.add_0_r. rewrite forallb_forall in H1. apply H1. exact Hin.
    + rewrite Nat.add_succ_r. apply (IH (S count) k H2 Hin).
Qed.

Section Summary.
Variable combinedText : JsString.
Variable context : option Context.

Let len := lengthClass (length combinedText).
Let repeat := repeatOffender context.

Lemma summary_checkReason acc entry :
  summary (checkReason combinedText context acc entry) =
  bump (summary acc) (outcome combinedText context (snd entry)).
Proof.
  destruct entry as [reason patterns].
  unfold checkReason, outcome, hit, summary; simpl.
  destruct (Nat.ltb 0 _); simpl; [|reflexivity].
  rewrite length_app, Nat.add_1_r. reflexivity.
Qed.

Lemma summary_checkPersonalInfo acc :
  summary (checkPersonalInfo combinedText acc) =
  bump (summary acc) (personalInfoOutcome combinedText).
Proof.
  unfold checkPersonalInfo, personalInfoOutcome, summary.
  destruct (Nat.ltb 0 _); simpl; [|reflexivity].
  rewrite length_app, Nat.add_1_r. reflexivity.
Qed.

Lemma summary_loop entries acc :
  summary (fold_left (checkReason combinedText context) entries acc) =
  fold_left bump (map (fun e => outcome combinedText context (snd e)) entries)
            (summary acc).
Proof.
  revert acc. induction entries as [|e entries IH]; intros acc; simpl.
  - reflexivity.
  - rewrite IH, summary_checkReason. reflexivity.
Qed.

Lemma summary_finalTally :
  summary (finalTally combinedText context) =
  fold_left bump
    (map (fun e => outcome combinedText context (snd e)) PATTERN_MAP
       ++ [personalInfoOutcome combinedText])
    (0%nat, 0).
Proof.
  unfold finalTally.
  rewrite summary_checkPersonalInfo, summary_loop, fold_left_app.
  reflexivity.
Qed.

Lemma outcome_hit patterns :
  hit combinedText patterns = true ->
  In (outcome combinedText context patterns)
     (hitOutcomes (length patterns) len repeat).
Proof.
  intros Hhit. unfold outcome, hitOutcomes. rewrite Hhit.
  apply (dedupe_In outcomeEqb outcomeEqb_eq).
  rewrite calculateConfidence_confidenceFor.
  apply (in_map (fun n => Some (confidenceFor n len repeat))).
  apply in_seq. unfold hit in Hhit. apply Nat.ltb_lt in Hhit.
  pose proof (findPatternMatches_length combinedText patterns). lia.
Qed.

Lemma outcome_any patterns :
  In (outcome combinedText context patterns)
     (allOutcomes (length patterns) len repeat).
Proof.
  destruct (hit combinedText patterns) eqn:Hhit.
  - right. apply outcome_hit. exact Hhit.
  - left. unfold outcome. rewrite Hhit. reflexivity.
Qed.

Lemma personalInfoOutcome_In :
  In (personalInfoOutcome combinedText) personalInfoOutcomes.
Proof.
  unfold personalInfoOutcome, personalInfoOutcomes.
  destruct (Nat.ltb 0 _); simpl; auto.
Qed.

(** Whatever [choose] offers for each entry of the catalog, if the outcome
    of the entry is among the offers, the summary of the final tally is among
    the summaries enumerated from them. *)
Lemma finalTally_reachable (choose : FlagReason * list RegExp -> list Outcome) :
  (forall entry, In entry PATTERN_MAP ->
     In (outcome combinedText context (snd entry)) (choose entry)) ->
  member (summary (finalTally combinedText context))
         (reachable (outcomesBy choose)).
Proof.
  intros Hchoose. rewrite summary_finalTally. unfold reachable, outcomesBy.
  apply reachable_member; [|left; reflexivity].
  apply Forall2_app.
  - revert Hchoose. generalize PATTERN_MAP as entries.
    induction entries as [|e entries IH]; intros H; simpl; constructor.
    + apply H. left. reflexivity.
    + apply IH. intros entry Hin. apply H. right. exact Hin.
  - constructor; [apply personalInfoOutcome_In | constructor].
Qed.

End Summary.

Lemma forallFinal_member repeat r check s twitter children :
  forallFinal repeat r check = true ->
  member s r ->
  check (fst s)
        (Math_min (adjustFor (snd s) (fst s) repeat twitter children) 1.0) = true.
Proof.
  unfold forallFinal, member, bools. intros H Hs.
  pose proof (forallFrom_nth _ _ _ 0 _ H Hs) as Hp.
  simpl in Hp. rewrite !andb_true_iff in Hp.
  destruct twitter, children; tauto.
Qed.

Lemma forallLengths_at check len :
  forallLengths check = true -> check len = true.
Proof.
  unfold forallLengths, lengthClasses. simpl. rewrite !andb_true_iff.
  destruct len; tauto.
Qed.

(** A check that holds of every enumerated summary holds of the result of a
    present request. *)
Lemma present_result_checked_by (request : ContentFlaggingRequest)
  (choose : FlagReason * list RegExp -> list Outcome)
  (check : nat -> float -> bool) :
  present (content request) = true ->
  (forall entry, In entry PATTERN_MAP ->
     In (outcome (combined (content request)) (context request) (snd entry))
        (choose entry)) ->
  forallFinal (repeatOffender (context request))
    (reachable (outcomesBy choose)) check = true ->
  check (length (reasons (analyzeContent request)))
        (confidence (analyzeContent request)) = true.
Proof.
  intros Hp Hchoose Hall.
  rewrite (analyzeContent_present request Hp). cbv zeta.
  cbn [reasons confidence]. rewrite applyContextAdjustments_adjustFor.
  exact (forallFinal_member _ _ check
           (summary (finalTally (combined (content request)) (context request)))
           _ _ Hall
           (finalTally_reachable (combined (content request)) (context request)
                                 choose Hchoose)).
Qed.

Lemma present_result_checked (request : ContentFlaggingRequest)
  (check : nat -> float -> bool) :
  present (content request) = true ->
  forallLengths (fun len =>
    forallFinal (repeatOffender (context request))
      (reachable (outcomesBy (anyOutcome len (repeatOffender (context request)))))
      check) = true ->
  check (length (reasons (analyzeContent request)))
        (confidence (analyzeContent request)) = true.
Proof.
  intros Hp Hall.
  apply (present_result_checked_by request
           (anyOutcome (lengthClass (length (combined (content request))))
                       (repeatOffender (context request)))
           check Hp).
  - intros entry _. apply outcome_any.
  - exact (forallLengths_at _ _ Hall).
Qed.

(** ** The reasons and the severity of the tally *)

Section Reasons.
Variable combinedText : JsString.
Variable context : option Context.

Lemma reasons_loop entries acc :
  detectedReasons (fold_left (checkReason combinedText context) entries acc) =
  detectedReasons acc
    ++ map fst (filter (fun e => hit combinedText (snd e)) entries).
Proof.
  revert acc. induction entries as [|[reason patterns] entries IH]; intros acc; simpl.
  - rewrite app_nil_r. reflexivity.
  - rewrite IH. unfold checkReason, hit.
    destruct (Nat.ltb 0 _); simpl; [|reflexivity].
    rewrite <- app_assoc. reflexivity.
Qed.

Lemma reasons_finalTally :
  detectedReasons (finalTally combinedText context) =
  map fst (filter (fun e => hit combinedText (snd e)) PATTERN_MAP)
    ++ (if Nat.ltb 0 (length (findPersonalInfoPatterns combinedText))
        then [personal_information] else []).
Proof.
  unfold finalTally, checkPersonalInfo.
  destruct (Nat.ltb 0 _); cbn [detectedReasons]; rewrite reasons_loop;
    cbn [detectedReasons initialTally app];
    [reflexivity | rewrite app_nil_r; reflexivity].
Qed.

Lemma loop_without_hit entries acc :
  existsb (fun e => hit combinedText (snd e)) entries = false ->
  fold_left (checkReason combinedText context) entries acc = acc.
Proof.
  revert acc.
  induction entries as [|[reason patterns] entries IH]; simpl; intros acc H.
  - reflexivity.
  - apply orb_false_iff in H. destruct H as [H1 H2].
    rewrite (IH _ H2). unfold checkReason. unfold hit in H1. rewrite H1. reflexivity.
Qed.

Lemma finalTally_without_hit :
  anyHit combinedText = false ->
  finalTally combinedText context = initialTally.
Proof.
  unfold anyHit, finalTally, checkPersonalInfo. intros H.
  apply orb_false_iff in H. destruct H as [H1 H2].
  rewrite H2. apply loop_without_hit. exact H1.
Qed.

Lemma reasons_nonempty :
  Nat.ltb 0 (length (detectedReasons (finalTally combinedText context))) =
  anyHit combinedText.
Proof.
  rewrite reasons_finalTally. unfold anyHit.
  generalize PATTERN_MAP as entries.
  induction entries as [|e entries IH]; simpl.
  - destruct (Nat.ltb 0 (length (findPersonalInfoPatterns combinedText)));
      reflexivity.
  - destruct (hit combinedText (snd e)); simpl; [reflexivity | exact IH].
Qed.

(** The severity of the tally only rises. *)
Lemma getHigherSeverity_left a b :
  severityIndex a <= severityIndex (getHigherSeverity a b).
Proof. destruct a, b; simpl; lia. Qed.

Lemma getHigherSeverity_right a b :
  severityIndex b <= severityIndex (getHigherSeverity a b).
Proof. destruct a, b; simpl; lia. Qed.

Lemma severity_checkReason acc entry :
  severityIndex (maxSeverity acc) <=
  severityIndex (maxSeverity (checkReason combinedText context acc entry)).
Proof.
  destruct entry as [reason patterns]. unfold checkReason.
  destruct (Nat.ltb 0 _); simpl; [apply getHigherSeverity_left | lia].
Qed.

Lemma severity_loop entries acc :
  severityIndex (maxSeverity acc) <=
  severityIndex (maxSeverity (fold_left (checkReason combinedText context) entries acc)).
Proof.
  revert acc. induction entries as [|e entries IH]; intros acc; simpl.
  - lia.
  - pose proof (severity_checkReason acc e). specialize (IH (checkReason combinedText context acc e)). lia.
Qed.

(** A hit entry leaves the severity of its reason, or a higher one. *)
Lemma severity_loop_hit entries reason patterns acc :
  In (reason, patterns) entries ->
  hit combinedText patterns = true ->
  exists confidence,
    severityIndex (getSeverityForReason reason confidence) <=
    severityIndex (maxSeverity (fold_left (checkReason combinedText context) entries acc)).
Proof.
  revert acc. induction entries as [|e entries IH]; intros acc Hin Hhit; simpl.
  - contradiction.
  - destruct Hin as [->|Hin].
    + exists (calculateConfidence (findPatternMatches combinedText patterns)
                                  combinedText context).
      eapply Nat.le_trans; [|apply severity_loop].
      unfold checkReason. unfold hit in Hhit. rewrite Hhit. simpl.
      apply getHigherSeverity_right.
    + apply IH; assumption.
Qed.

Lemma severity_checkPersonalInfo acc :
  severityIndex (maxSeverity acc) <=
  severityIndex (maxSeverity (checkPersonalInfo combinedText acc)).
Proof.
  unfold checkPersonalInfo.
  destruct (Nat.ltb 0 _); simpl; [apply getHigherSeverity_left | lia].
Qed.

End Reasons.

(** ** The empty text *)

Lemma combined_absent (c : ContentItem) :
  present c = false -> combined c = [].
Proof.
  unfold present, combined, falsy. intros H. apply negb_false_iff in H.
  apply andb_true_iff in H. destruct H as [Ht Hu].
  destruct (text c) as [[|? ?]|]; try discriminate;
    destruct (url c) as [[|? ?]|]; try discriminate; reflexivity.
Qed.

Lemma anyHit_empty : anyHit [] = false.
Proof. vm_compute. reflexivity. Qed.

(** ** Numbers *)

(** Capping at 1 twice is capping once. *)
Lemma Math_min_one_idempotent (x : float) :
  Math_min (Math_min x 1) 1 = Math_min x 1.
Proof.
  assert (Hx : Math_min x 1 = Math_min x 1) by reflexivity.
  unfold Math_min at 2 in Hx.
  destruct (is_nan x || is_nan 1) eqn:E1; [rewrite Hx; reflexivity|].
  destruct (x <? 1) eqn:E2; [rewrite Hx; exact Hx|].
  destruct (1 <? x) eqn:E3; [rewrite Hx; reflexivity|].
  destruct (get_sign x) eqn:E4; [rewrite Hx; exact Hx | rewrite Hx; reflexivity].
Qed.

(** A number above 3 is neither NaN nor zero. *)
Lemma above_three_truthy (n : float) : (3 <? n) = true -> truthy n = true.
Proof.
  unfold truthy, is_nan, is_zero.
  rewrite ltb_spec, !eqb_spec.
  replace (Prim2SF 3) with (S754_finite false 6755399441055744 (-51))
    by (vm_compute; reflexivity).
  replace (Prim2SF zero) with (S754_zero false) by (vm_compute; reflexivity).
  unfold SFltb, SFeqb.
  destruct (Prim2SF n) as [s|s| |s m e]; simpl; try discriminate.
  - destruct s; [discriminate | reflexivity].
  - destruct s; [discriminate|]. intros _.
    rewrite Z.compare_refl, Pos.compare_cont_refl. reflexivity.
Qed.

Lemma repeatOffender_above_three (ctx : Context) (n : float) :
  previousFlags ctx = Some n -> (3 <? n) = true ->
  repeatOffender (Some ctx) = true.
Proof.
  intros Hn H. unfold repeatOffender. rewrite Hn, H, (above_three_truthy n H).
  reflexivity.
Qed.

Lemma generateDetails_described reasons confidence :
  generateDetails reasons confidence = describedDetails reasons confidence.
Proof. destruct reasons; reflexivity. Qed.

(** ** The catalog *)

Lemma reasonEqb_eq r1 r2 : reasonEqb r1 r2 = true -> r1 = r2.
Proof. destruct r1, r2; simpl; congruence. Qed.

(** Every key of [PATTERN_MAP] occurs once: an entry holds the rules of its
    reason. *)
Lemma PATTERN_MAP_entry entry :
  In entry PATTERN_MAP -> snd entry = rulesFor (fst entry).
Proof.
  unfold PATTERN_MAP. cbn [In]. intros H.
  repeat (destruct H as [<-|H]; [reflexivity|]). contradiction.
Qed.

Lemma PATTERN_MAP_rulesFor reason :
  In (reason, rulesFor reason) PATTERN_MAP.
Proof. destruct reason; unfold PATTERN_MAP; cbn [In]; tauto. Qed.

Lemma hit_anyHit combinedText reason :
  hit combinedText (rulesFor reason) = true -> anyHit combinedText = true.
Proof.
  intros H. unfold anyHit. apply orb_true_iff. left.
  apply existsb_exists. exists (reason, rulesFor reason).
  split; [apply PATTERN_MAP_rulesFor | exact H].
Qed.

Lemma hit_present (c : ContentItem) reason :
  hit (combined c) (rulesFor reason) = true -> present c = true.
Proof.
  intros H. destruct (present c) eqn:Hp; [reflexivity|].
  rewrite (combined_absent c Hp) in H.
  apply hit_anyHit in H. rewrite anyHit_empty in H. discriminate.
Qed.

Lemma hit_reason combinedText context reason :
  hit combinedText (rulesFor reason) = true ->
  In reason (detectedReasons (finalTally combinedText context)).
Proof.
  intros H. rewrite reasons_finalTally. apply in_or_app. left.
  apply (in_map fst _ (reason, rulesFor reason)).
  apply filter_In. split; [apply PATTERN_MAP_rulesFor | exact H].
Qed.

Lemma hit_flagged (request : ContentFlaggingRequest) reason :
  hit (combined (content request)) (rulesFor reason) = true ->
  isFlagged (analyzeContent request) = true.
Proof.
  intros H. rewrite (analyzeContent_present request (hit_present _ _ H)).
  cbv zeta. cbn [isFlagged].
  rewrite reasons_nonempty, (hit_anyHit _ _ H). apply orb_true_r.
Qed.

Lemma hit_severity combinedText context reason :
  hit combinedText (rulesFor reason) = true ->
  exists confidence,
    severityIndex (getSeverityForReason reason confidence) <=
    severityIndex (maxSeverity (finalTally combinedText context)).
Proof.
  intros H.
  destruct (severity_loop_hit combinedText context PATTERN_MAP reason
              (rulesFor reason) initialTally (PATTERN_MAP_rulesFor reason) H)
    as [confidence Hle].
  exists confidence. eapply Nat.le_trans; [exact Hle|].
  apply severity_checkPersonalInfo.
Qed.

(** The outcomes that [pairOutcome] offers cover the outcome of every entry
    when [reason] and [other] are hit. *)
Lemma pairOutcome_covers combinedText context reason other entry :
  hit combinedText (rulesFor reason) = true ->
  hit combinedText (rulesFor other) = true ->
  In entry PATTERN_MAP ->
  In (outcome combinedText context (snd entry))
     (pairOutcome reason other (soloConfidence reason combinedText context)
        (lengthClass (length combinedText)) (repeatOffender context) entry).
Proof.
  intros Hr Ho Hin. unfold pairOutcome.
  rewrite (PATTERN_MAP_entry entry Hin).
  destruct (reasonEqb (fst entry) reason) eqn:E1.
  - apply reasonEqb_eq in E1. rewrite E1. left.
    unfold outcome, soloConfidence. rewrite Hr. reflexivity.
  - destruct (reasonEqb (fst entry) other) eqn:E2.
    + apply reasonEqb_eq in E2. rewrite E2.
      rewrite <- (PATTERN_MAP_entry _ (PATTERN_MAP_rulesFor other)) at 1.
      cbn [snd]. apply outcome_hit. exact Ho.
    + rewrite <- (PATTERN_MAP_entry entry Hin). apply outcome_any.
Qed.

(** The result of a request that hits [reason] and [other], compared with
    the confidence of [reason] on its own. *)
Lemma pair_checked (request : ContentFlaggingRequest) reason other :
  (forall repeat,
     forallLengths (fun len => pairCheck reason other len repeat) = true) ->
  hit (combined (content request)) (rulesFor reason) = true ->
  hit (combined (content request)) (rulesFor other) = true ->
  let solo := soloConfidence reason (combined (content request)) (context request) in
  let c := confidence (analyzeContent request) in
  1 < length (reasons (analyzeContent request)) /\
  (solo <=? c) = true /\
  ((solo <? 1) = true -> (solo <? c) = true).
Proof.
  intros Hcheck Hr Ho solo c.
  pose proof (hit_present _ _ Hr) as Hp.
  set (T := combined (content request)) in *.
  set (ctx := context request) in *.
  pose proof (forallLengths_at _ (lengthClass (length T))
                (Hcheck (repeatOffender ctx))) as Hlen.
  cbv beta in Hlen. unfold pairCheck in Hlen. rewrite forallb_forall in Hlen.
  specialize (Hlen (Some solo)).
  assert (Hsolo : In (Some solo)
            (hitOutcomes (length (rulesFor reason)) (lengthClass (length T))
               (repeatOffender ctx))).
  { pose proof (outcome_hit T ctx (rulesFor reason) Hr) as H.
    unfold outcome in H. rewrite Hr in H. exact H. }
  specialize (Hlen Hsolo). cbv beta iota in Hlen.
  pose proof (present_result_checked_by request _ _ Hp
                (fun entry => pairOutcome_covers T ctx reason other entry Hr Ho)
                Hlen) as H.
  cbv beta in H. rewrite !andb_true_iff in H. destruct H as [[H1 H2] H3].
  apply Nat.ltb_lt in H1. repeat split; [exact H1 | exact H2 |].
  intros Hlt. fold solo c in H3. rewrite Hlt in H3. exact H3.
Qed.

(** ** The pattern [/die/i] *)

Lemma execFrom_die (pre post : JsString) :
  forall bef, execFrom (rx_i [lit "die"]) bef (pre ++ str "die" ++ post) <> None.
Proof.
  induction pre as [|ch pre IH]; intros bef.
  - cbn. discriminate.
  - cbn [app execFrom].
    destruct (matcher _ _ _ _); [discriminate | apply IH].
Qed.

Lemma test_die (combinedText : JsString) :
  contains combinedText (str "die") ->
  test (rx_i [lit "die"]) combinedText = true.
Proof.
  intros (pre & post & ->). unfold test, String_match.
  pose proof (execFrom_die pre post []) as H.
  destruct (execFrom _ _ _); [reflexivity | contradiction].
Qed.

Lemma hit_die (combinedText : JsString) :
  contains combinedText (str "die") ->
  hit combinedText (rulesFor harassment) = true.
Proof.
  intros H. apply (findPatternMatches_hit combinedText (rx_i [lit "die"])).
  - right. right. right. left. reflexivity.
  - apply test_die. exact H.
Qed.

(** ** How often a reason is listed *)

Lemma count_occ_loop combinedText reason entries :
  count_occ FlagReason_eq_dec
    (map fst (filter (fun e => hit combinedText (snd e)) entries)) reason =
  length (filter (fun e => reasonEqb (fst e) reason && hit combinedText (snd e))
                 entries).
Proof.
  induction entries as [|[r patterns] entries IH]; [reflexivity|].
  cbn [filter snd fst]. destruct (hit combinedText patterns); cbn [map fst].
  - destruct (reasonEqb r reason) eqn:E; cbn [andb length].
    + apply reasonEqb_eq in E. subst r.
      rewrite count_occ_cons_eq by reflexivity. rewrite IH. reflexivity.
    + rewrite count_occ_cons_neq; [exact IH|].
      intros ->. destruct reason; discriminate.
  - rewrite andb_false_r. exact IH.
Qed.

(** The personal-information check runs the rules that the catalog holds for
    [personal_information]. *)
Lemma findPersonalInfoPatterns_catalog combinedText :
  findPersonalInfoPatterns combinedText =
  findPatternMatches combinedText (rulesFor personal_information).
Proof. reflexivity. Qed.

(* ================================================================== *)
(** * The tests of the repository, replayed *)
(* ================================================================== *)

(** ** content-flagging.spec.ts *)

Example returns_clean_result_for_empty_content :
  analyzeContent (textRequest "" None) =
  {| isFlagged := false; severity := low; reasons := []; confidence := 0;
     details := None |}.
Proof. reflexivity. Qed.

Example detects_spam_content :
  let result := analyzeContent (textRequest "CLICK HERE FOR FREE MONEY!!! ACT NOW!!!" None) in
  isFlagged result && toContain (reasons result) spam
    && (0.3 <? confidence result) = true.
Proof. vm_compute. reflexivity. Qed.

Example detects_hate_speech :
  let result := analyzeContent (textRequest "All people are stupid and I hate them" None) in
  isFlagged result && toContain (reasons result) hate_speech = true /\
  severity result = high.
Proof. vm_compute. split; reflexivity. Qed.

Example detects_violence :
  let result := analyzeContent (textRequest "I will kill you with my gun" None) in
  isFlagged result && toContain (reasons result) violence = true /\
  severity result = critical.
Proof. vm_compute. split; reflexivity. Qed.

Example detects_phishing_attempts :
  let result :=
    analyzeContent (textRequest
      "Urgent action required! Verify your account now or it will be suspended!"
      None) in
  isFlagged result && toContain (reasons result) phishing = true /\
  severity result = high.
Proof. vm_compute. split; reflexivity. Qed.

Example detects_adult_content :
  let result := analyzeContent (textRequest "Check out this adult content and porn" None) in
  isFlagged result && toContain (reasons result) adult_content = true /\
  severity result = medium.
Proof. vm_compute. split; reflexivity. Qed.

Example detects_misinformation :
  let result :=
    analyzeContent (textRequest
      "This conspiracy theory about government cover-up is real" None) in
  isFlagged result && toContain (reasons result) misinformation = true /\
  severity result = medium.
Proof. vm_compute. split; reflexivity. Qed.

Example handles_multiple_flag_reasons :
  let result :=
    analyzeContent (textRequest
      "CLICK HERE FOR FREE MONEY!!! You should kill yourself!!!" None) in
  isFlagged result && toContain (reasons result) spam
    && toContain (reasons result) harassment
    && Nat.ltb 1 (length (reasons result))
    && (0.4 <? confidence result) = true.
Proof. vm_compute. reflexivity. Qed.

Example applies_context_adjustments_for_repeat_offenders :
  (0.3 <? confidence (analyzeContent
                        (textRequest "This is borderline spam content" fiveFlags)))
  = true.
Proof. vm_compute. reflexivity. Qed.

Example applies_platform_specific_adjustments :
  (0 <? confidence (analyzeContent
          (textRequest "This is borderline content"
             (Some {| platform := Some (str "twitter"); audience := None;
                      previousFlags := None |})))) = true.
Proof. vm_compute. reflexivity. Qed.

Example applies_audience_specific_adjustments :
  (0 <? confidence (analyzeContent
          (textRequest "This is borderline content"
             (Some {| platform := None; audience := Some (str "children");
                      previousFlags := None |})))) = true.
Proof. vm_compute. reflexivity. Qed.

Example handles_URL_content :
  let result := analyzeContent (urlRequest "https://bit.ly/suspicious-link") in
  isFlagged result && toContain (reasons result) spam = true.
Proof. vm_compute. reflexivity. Qed.

Example returns_appropriate_severity_levels :
  map (fun t => severity (analyzeContent (textRequest t None)))
      ["spam content"; "hate speech content"; "violence with gun"] =
  [low; high; critical].
Proof. vm_compute. reflexivity. Qed.

Example returns_complete_response_with_metadata :
  let result := analyzeContent (textRequest "Clean content that should pass" None) in
  (isFlagged result, severity result, reasons result, confidence result) =
  (false, low, [], 0).
Proof. vm_compute. reflexivity. Qed.

(** ** patterns.spec.ts *)

Example spam_patterns_detect_common_spam_phrases :
  someMatchEach (rulesFor spam)
    ["Click here for free money!"; "Make money fast with this offer";
     "Limited time offer - act now!"; "Get rich quick scheme";
     "Work from home opportunity"] = true.
Proof. vm_compute. reflexivity. Qed.

Example spam_patterns_detect_repetition_and_caps :
  someMatchEach (rulesFor spam) ["aaaaaaaaaa"; "THIS IS ALL CAPS TEXT"] = true.
Proof. vm_compute. reflexivity. Qed.

Example hate_speech_patterns_detect_discriminatory_language :
  someMatchEach (rulesFor hate_speech)
    ["All people are stupid"; "I hate everyone"] = true.
Proof. vm_compute. reflexivity. Qed.

Example harassment_patterns_detect_threats :
  someMatchEach (rulesFor harassment)
    ["You should kill yourself"; "I will hurt you"; "Watch your back"] = true.
Proof. vm_compute. reflexivity. Qed.

Example violence_patterns_detect_explicit_violence :
  someMatchEach (rulesFor violence)
    ["I will kill you"; "Beat them up"; "Use a gun"] = true.
Proof. vm_compute. reflexivity. Qed.

Example adult_content_patterns_detect_explicit_content :
  someMatchEach (rulesFor adult_content)
    ["Adult content here"; "Sex and porn"] = true.
Proof. vm_compute. reflexivity. Qed.

Example misinformation_patterns_detect_conspiracy_theories :
  someMatchEach (rulesFor misinformation)
    ["Government conspiracy"; "Fake news alert"; "Miracle cure for everything"]
  = true.
Proof. vm_compute. reflexivity. Qed.

Example phishing_patterns_detect_urgency_tactics :
  someMatchEach (rulesFor phishing)
    ["Urgent action required"; "Verify your account now";
     "Click to verify or be suspended"] = true.
Proof. vm_compute. reflexivity. Qed.

Example personal_information_patterns_detect_sensitive_data :
  someMatchEach (rulesFor personal_information)
    ["123-45-6789"; "555-123-4567"; "test@example.com"; "1234 5678 9012 3456"]
  = true.
Proof. vm_compute. reflexivity. Qed.

Example patterns_are_case_insensitive :
  someMatchEach (rulesFor spam)
    ["CLICK HERE"; "click here"; "Click Here"; "cLiCk HeRe"] = true.
Proof. vm_compute. reflexivity. Qed.

Example patterns_do_not_match_clean_content :
  forallb (fun t => negb (anyHit (str t)))
    ["Hello, how are you today?"; "This is a normal conversation";
     "I love programming and learning new things"; "The weather is nice today";
     "Thank you for your help"] = true.
Proof. vm_compute. reflexivity. Qed.

(* ================================================================== *)
(** * Properties *)
(* ================================================================== *)

Lemma flagged_without_hit_enumerated repeat twitter children :
  (0.3 <? adjustFor 0 0 repeat twitter children) = repeat /\
  (repeat = false ->
   (Math_min (adjustFor 0 0 repeat twitter children) 1.0 <=? 0.3) = true).
Proof. destruct repeat, twitter, children; vm_compute; split; congruence. Qed.

(** C1, as the code has it. [isFlagged] is true if and only if at least one
    category is hit, or a text or url is present and [previousFlags] is above
    3; and when no category is hit and [previousFlags] is not above 3 the
    final confidence does not exceed 0.3. *)
Theorem flagged_iff_hit_or_repeat_offender (request : ContentFlaggingRequest) :
  isFlagged (analyzeContent request) =
    anyHit (combined (content request))
    || (present (content request) && repeatOffender (context request))
  /\ (anyHit (combined (content request)) = false ->
      repeatOffender (context request) = false ->
      (confidence (analyzeContent request) <=? 0.3) = true).
Proof.
  destruct (present (content request)) eqn:Hp.
  - rewrite (analyzeContent_present request Hp).
    cbv zeta. cbn [isFlagged confidence]. rewrite reasons_nonempty.
    destruct (anyHit (combined (content request))) eqn:Hhit.
    + split; [apply orb_true_r | discriminate].
    + rewrite (finalTally_without_hit _ (context request) Hhit).
      rewrite applyContextAdjustments_adjustFor.
      cbn [totalConfidence detectedReasons initialTally length orb].
      destruct (flagged_without_hit_enumerated
                  (repeatOffender (context request))
                  (platformIs (context request) "twitter")
                  (audienceIs (context request) "children")) as [H1 H2].
      rewrite H1, orb_false_r. split; [reflexivity | intros _; exact H2].
  - rewrite (analyzeContent_absent request Hp), (combined_absent _ Hp), anyHit_empty.
    split; reflexivity.
Qed.

(** C1, as it is stated, fails on the input of the repository's test for
    repeat offenders: no category is hit, and the result is flagged with a
    confidence above 0.3. *)
Lemma flagged_without_any_hit :
  let request := textRequest "This is borderline spam content" fiveFlags in
  anyHit (combined (content request)) = false /\
  isFlagged (analyzeContent request) = true /\
  (0.3 <? confidence (analyzeContent request)) = true.
Proof. vm_compute. repeat split. Qed.

(** C2, which the code breaks. Whenever the personal-information check
    finds a match, the catalog entry for [personal_information] has found the
    same match in the loop, and the reason is listed twice. *)
Theorem personal_information_listed_twice (request : ContentFlaggingRequest) :
  Nat.ltb 0 (length (findPersonalInfoPatterns (combined (content request)))) = true ->
  count_occ FlagReason_eq_dec (reasons (analyzeContent request))
            personal_information = 2%nat.
Proof.
  intros Hpi.
  assert (Hhit : hit (combined (content request)) (rulesFor personal_information) = true).
  { unfold hit. rewrite <- findPersonalInfoPatterns_catalog. exact Hpi. }
  rewrite (analyzeContent_present request (hit_present _ _ Hhit)).
  cbv zeta. cbn [reasons]. rewrite reasons_finalTally, Hpi.
  rewrite count_occ_app, count_occ_loop.
  unfold PATTERN_MAP. cbn [filter fst snd reasonEqb andb length].
  change (hit (combined (content request))
              [PERSONAL_INFO_PATTERNS.ssn; PERSONAL_INFO_PATTERNS.phone;
               PERSONAL_INFO_PATTERNS.email; PERSONAL_INFO_PATTERNS.creditCard])
    with (hit (combined (content request)) (rulesFor personal_information)).
  rewrite Hhit. reflexivity.
Qed.

Lemma personal_information_listed_twice_witness :
  reasons (analyzeContent (textRequest ssnAndPhone None)) =
    [personal_information; personal_information] /\
  count_occ FlagReason_eq_dec
            (reasons (analyzeContent (textRequest ssnAndPhone None)))
            personal_information = 2%nat.
Proof.
  split; [vm_compute; reflexivity|].
  apply (personal_information_listed_twice (textRequest ssnAndPhone None)).
  vm_compute. reflexivity.
Defined.

Lemma confidence_bounds_enumerated repeat :
  forallLengths (fun len =>
    forallFinal repeat (reachable (outcomesBy (anyOutcome len repeat)))
      (fun _ c => (0 <=? c) && (c <=? 1))) = true.
Proof. destruct repeat; vm_compute; reflexivity. Qed.

(** C3. For every request, whatever its text, url and context, the
    confidence of the result of [analyzeContent] lies between 0 and 1. *)
Theorem confidence_in_unit_interval (request : ContentFlaggingRequest) :
  (0 <=? confidence (analyzeContent request)) = true /\
  (confidence (analyzeContent request) <=? 1) = true.
Proof.
  destruct (present (content request)) eqn:Hp.
  - apply andb_true_iff.
    apply (present_result_checked request (fun _ c => (0 <=? c) && (c <=? 1)) Hp).
    apply confidence_bounds_enumerated.
  - rewrite (analyzeContent_absent request Hp). split; reflexivity.
Qed.

(** C4, as the code has it. When the combined text is empty no reason is
    detected, the severity is low, and the result is flagged exactly when a
    text or url is present and [previousFlags] is above 3; the result is not
    flagged and has confidence 0 when text and url are both absent or empty,
    and also when the context asks for no adjustment. *)
Theorem empty_combined_text (request : ContentFlaggingRequest) :
  combined (content request) = [] ->
  reasons (analyzeContent request) = [] /\
  severity (analyzeContent request) = low /\
  isFlagged (analyzeContent request) =
    present (content request) && repeatOffender (context request) /\
  (present (content request) = false \/
   (repeatOffender (context request) = false /\
    platformIs (context request) "twitter" = false /\
    audienceIs (context request) "children" = false) ->
   isFlagged (analyzeContent request) = false /\
   confidence (analyzeContent request) = 0).
Proof.
  intros Hempty.
  destruct (present (content request)) eqn:Hp.
  - rewrite (analyzeContent_present request Hp). cbv zeta.
    cbn [reasons severity isFlagged confidence].
    rewrite reasons_nonempty, Hempty, anyHit_empty.
    rewrite (finalTally_without_hit [] (context request) anyHit_empty).
    rewrite applyContextAdjustments_adjustFor.
    cbn [totalConfidence detectedReasons maxSeverity initialTally length].
    destruct (flagged_without_hit_enumerated
                (repeatOffender (context request))
                (platformIs (context request) "twitter")
                (audienceIs (context request) "children")) as [H1 _].
    rewrite H1, orb_false_r. repeat split.
    + destruct H as [H|(Hr & Ht & Hc)]; [discriminate | exact Hr].
    + destruct H as [H|(Hr & Ht & Hc)]; [discriminate|].
      rewrite Hr, Ht, Hc. vm_compute. reflexivity.
  - rewrite (analyzeContent_absent request Hp). repeat split.
Qed.

Lemma empty_combined_text_witness :
  let request := textRequest "   " None in
  combined (content request) = [] /\
  isFlagged (analyzeContent request) = false /\
  confidence (analyzeContent request) = 0.
Proof.
  cbv zeta. split; [reflexivity|].
  apply (empty_combined_text (textRequest "   " None)); [reflexivity|].
  right. repeat split.
Defined.

(** C4, as it is stated, fails on a text of one space from a user with five
    earlier flags: the combined text is empty, and the result is flagged with
    confidence 0.4. *)
Lemma empty_combined_text_flagged :
  let request := textRequest " " fiveFlags in
  combined (content request) = [] /\
  isFlagged (analyzeContent request) = true /\
  confidence (analyzeContent request) = 0.4.
Proof. vm_compute. repeat split. Qed.

(** C5. On the text with a social security number and a phone number, with
    no context, the result is flagged, [personal_information] is among its
    reasons, its severity is high and its confidence is above 0.8. *)
Theorem personal_information_example :
  let result := analyzeContent (textRequest ssnAndPhone None) in
  isFlagged result = true /\
  In personal_information (reasons result) /\
  severity result = high /\
  (0.8 <? confidence result) = true.
Proof. vm_compute. repeat split. left. reflexivity. Qed.

(** C6. Whatever the confidence, the severity of [harassment] is high; and
    the text "You should kill yourself" is flagged, with [harassment] among
    the reasons, and with severity high. *)
Theorem harassment_pinned_at_high :
  (forall confidence : float,
     getSeverityForReason harassment confidence = high) /\
  let result := analyzeContent (textRequest "You should kill yourself" None) in
  isFlagged result = true /\
  In harassment (reasons result) /\
  severity result = high.
Proof.
  split; [reflexivity|]. vm_compute. repeat split. left. reflexivity.
Qed.

Lemma repeat_offender_enumerated :
  forallLengths (fun len =>
    forallFinal true (reachable (outcomesBy (anyOutcome len true)))
      (fun _ c => 0.4 <=? c)) = true.
Proof. vm_compute. reflexivity. Qed.

(** C7, as the code has it. For every request with a text or url present
    and [previousFlags] above 3, the confidence of the result is at least
    0.4. *)
Theorem repeat_offender_floor (request : ContentFlaggingRequest)
  (ctx : Context) (n : float) :
  present (content request) = true ->
  context request = Some ctx ->
  previousFlags ctx = Some n ->
  (3 <? n) = true ->
  (0.4 <=? confidence (analyzeContent request)) = true.
Proof.
  intros Hp Hctx Hn Hgt.
  apply (present_result_checked request (fun _ c => 0.4 <=? c) Hp).
  rewrite Hctx, (repeatOffender_above_three ctx n Hn Hgt).
  apply repeat_offender_enumerated.
Qed.

Lemma repeat_offender_floor_witness :
  (0.4 <=? confidence (analyzeContent
                         (textRequest "This is borderline spam content" fiveFlags))) = true.
Proof.
  apply (repeat_offender_floor
           (textRequest "This is borderline spam content" fiveFlags)
           {| platform := None; audience := None; previousFlags := Some 5 |}
           5); reflexivity.
Defined.

(** C7, as it is stated, fails where text and url are both absent: with
    five earlier flags the confidence is 0. *)
Lemma repeat_offender_without_content :
  repeatOffender (context (emptyRequest fiveFlags)) = true /\
  confidence (analyzeContent (emptyRequest fiveFlags)) = 0 /\
  (0.4 <=? confidence (analyzeContent (emptyRequest fiveFlags))) = false.
Proof. vm_compute. repeat split. Qed.

Lemma pairCheck_spam repeat :
  forallLengths (fun len => pairCheck spam harassment len repeat) = true.
Proof. destruct repeat; vm_compute; reflexivity. Qed.

Lemma pairCheck_harassment repeat :
  forallLengths (fun len => pairCheck harassment spam len repeat) = true.
Proof. destruct repeat; vm_compute; reflexivity. Qed.

(** C8, as the code has it. For every request whose combined text hits a
    spam rule and a harassment rule, the result has more than one reason, and
    its confidence is at least the confidence of each of the two categories on
    its own, and above it when that confidence is below 1, the value at which
    the final confidence is capped. *)
Theorem spam_and_harassment (request : ContentFlaggingRequest) :
  let combinedText := combined (content request) in
  let result := analyzeContent request in
  hit combinedText (rulesFor spam) = true ->
  hit combinedText (rulesFor harassment) = true ->
  1 < length (reasons result) /\
  (forall reason, reason = spam \/ reason = harassment ->
     let solo := soloConfidence reason combinedText (context request) in
     (solo <=? confidence result) = true /\
     ((solo <? 1) = true -> (solo <? confidence result) = true)).
Proof.
  intros combinedText result Hs Hh.
  pose proof (pair_checked request spam harassment pairCheck_spam Hs Hh) as Hspam.
  pose proof (pair_checked request harassment spam pairCheck_harassment Hh Hs) as Hhar.
  cbv zeta in Hspam, Hhar.
  split; [apply Hspam|].
  intros reason [->| ->]; cbv zeta; [apply Hspam | apply Hhar].
Qed.

Lemma spam_and_harassment_witness :
  let request :=
    textRequest "CLICK HERE FOR FREE MONEY!!! You should kill yourself!!!" None in
  1 < length (reasons (analyzeContent request)) /\
  (soloConfidence harassment (combined (content request)) None
     <? confidence (analyzeContent request)) = true.
Proof.
  cbv zeta.
  pose proof (spam_and_harassment
    (textRequest "CLICK HERE FOR FREE MONEY!!! You should kill yourself!!!" None))
    as H.
  cbv zeta in H. specialize (H eq_refl eq_refl). destruct H as [H1 H2].
  split; [exact H1|].
  apply (H2 harassment (or_intror eq_refl)). reflexivity.
Defined.

(** C8, as it is stated, fails on a short text with four spam phrases and
    one harassment rule: spam on its own has confidence 1, and the final
    confidence, capped at 1, is not above it. *)
Lemma spam_solo_confidence_at_cap :
  let request := textRequest "click here free money act now no risk die" None in
  let combinedText := combined (content request) in
  hit combinedText (rulesFor spam) = true /\
  hit combinedText (rulesFor harassment) = true /\
  soloConfidence spam combinedText None = 1 /\
  confidence (analyzeContent request) = 1 /\
  (soloConfidence spam combinedText None <? confidence (analyzeContent request))
    = false.
Proof. vm_compute. repeat split. Qed.

(** C9, as the code has it. When a text or url is present [details] is the
    summary that the specification describes, built from the reasons and the
    confidence of the result; when both are absent or empty there is no
    [details]. *)
Theorem details_described (request : ContentFlaggingRequest) :
  details (analyzeContent request) =
  if present (content request)
  then Some (describedDetails (reasons (analyzeContent request))
                              (confidence (analyzeContent request)))
  else None.
Proof.
  destruct (present (content request)) eqn:Hp.
  - rewrite (analyzeContent_present request Hp). cbv zeta.
    cbn [details reasons confidence].
    rewrite applyContextAdjustments_adjustFor. unfold adjustFor.
    rewrite (Math_min_one_idempotent _), generateDetails_described.
    reflexivity.
  - rewrite (analyzeContent_absent request Hp). reflexivity.
Qed.

(** C9, as it is stated, fails where text and url are both absent: the
    result has no [details]. *)
Lemma details_absent :
  details (analyzeContent (emptyRequest None)) = None /\
  details (analyzeContent (emptyRequest None)) <>
    Some (str "Content appears to be clean").
Proof. split; [reflexivity | discriminate]. Qed.

(** C10. For every request whose combined text contains [die], inside a
    word or not, the result is flagged, [harassment] is among its reasons and
    its severity is high or critical. *)
Theorem die_flags_harassment (request : ContentFlaggingRequest) :
  contains (combined (content request)) (str "die") ->
  isFlagged (analyzeContent request) = true /\
  In harassment (reasons (analyzeContent request)) /\
  (severity (analyzeContent request) = high \/
   severity (analyzeContent request) = critical).
Proof.
  intros Hdie. apply hit_die in Hdie.
  split; [apply (hit_flagged request harassment Hdie)|].
  rewrite (analyzeContent_present request (hit_present _ _ Hdie)).
  cbv zeta. cbn [reasons severity]. split.
  - apply hit_reason. exact Hdie.
  - destruct (hit_severity _ (context request) _ Hdie) as [confidence Hle].
    cbn [getSeverityForReason severityIndex] in Hle.
    destruct (maxSeverity _); cbn in Hle; try lia; auto.
Qed.

Lemma die_flags_harassment_witness :
  isFlagged (analyzeContent (textRequest "a soldier on a diet" None)) = true /\
  In harassment (reasons (analyzeContent (textRequest "a soldier on a diet" None))).
Proof.
  pose proof (die_flags_harassment (textRequest "a soldier on a diet" None)) as H.
  assert (Hc : contains (combined (content (textRequest "a soldier on a diet" None)))
                        (str "die")).
  { exists (str "a sol"), (str "r on a diet"). reflexivity. }
  destruct (H Hc) as (H1 & H2 & _). split; assumption.
Defined.

(* ================================================================== *)
(** * Further lemmas *)
(* ================================================================== *)

(** ** The reasons of a result *)

Lemma reasons_analyzeContent (request : ContentFlaggingRequest) :
  reasons (analyzeContent request) =
  map fst (hitEntries (combined (content request)))
    ++ (if personalInfoHit (combined (content request))
        then [personal_information] else []).
Proof.
  destruct (present (content request)) eqn:Hp.
  - rewrite (analyzeContent_present request Hp). cbv zeta. cbn [reasons].
    apply reasons_finalTally.
  - rewrite (analyzeContent_absent request Hp), (combined_absent _ Hp).
    vm_compute. reflexivity.
Qed.

Lemma listed_hit (request : ContentFlaggingRequest) reason :
  In reason (reasons (analyzeContent request)) ->
  hit (combined (content request)) (rulesFor reason) = true.
Proof.
  rewrite reasons_analyzeContent. intros H. apply in_app_or in H.
  destruct H as [H|H].
  - apply in_map_iff in H. destruct H as [entry [<- H]].
    apply filter_In in H. destruct H as [Hin Hhit].
    rewrite <- (PATTERN_MAP_entry entry Hin). exact Hhit.
  - unfold personalInfoHit in H.
    destruct (Nat.ltb 0 _) eqn:E; [|contradiction].
    destruct H as [<-|[]]. exact E.
Qed.

Lemma hit_listed (request : ContentFlaggingRequest) reason :
  hit (combined (content request)) (rulesFor reason) = true ->
  In reason (reasons (analyzeContent request)).
Proof.
  intros H. rewrite reasons_analyzeContent. apply in_or_app. left.
  apply (in_map fst _ (reason, rulesFor reason)).
  apply filter_In. split; [apply PATTERN_MAP_rulesFor | exact H].
Qed.

(** ** Severity *)

Lemma getHigherSeverity_index a b :
  severityIndex (getHigherSeverity a b) =
  Nat.max (severityIndex a) (severityIndex b).
Proof. destruct a, b; reflexivity. Qed.

Lemma severityIndex_inj a b : severityIndex a = severityIndex b -> a = b.
Proof. destruct a, b; simpl; congruence. Qed.

Lemma severity_loop_max combinedText context entries :
  forall acc,
  severityIndex (maxSeverity
    (fold_left (checkReason combinedText context) entries acc)) =
  Nat.max (severityIndex (maxSeverity acc))
    (list_max (map (fun e => severityIndex (severityOfEntry combinedText context e))
                   (filter (fun e => hit combinedText (snd e)) entries))).
Proof.
  induction entries as [|[reason patterns] entries IH]; intros acc.
  - simpl. lia.
  - cbn [fold_left filter snd]. rewrite IH. unfold checkReason, hit.
    destruct (Nat.ltb 0 (length (findPatternMatches combinedText patterns))).
    + cbn [maxSeverity map list_max fold_right].
      rewrite getHigherSeverity_index. unfold severityOfEntry. cbn [fst snd].
      unfold list_max. lia.
    + reflexivity.
Qed.

(** ** The result depends on the content through [present] and [combined] *)

Lemma analyzeContent_ext (r1 r2 : ContentFlaggingRequest) :
  present (content r1) = present (content r2) ->
  combined (content r1) = combined (content r2) ->
  context r1 = context r2 ->
  analyzeContent r1 = analyzeContent r2.
Proof.
  intros Hp Hc Hx. destruct (present (content r2)) eqn:E.
  - rewrite (analyzeContent_present r1 Hp), (analyzeContent_present r2 E).
    cbv zeta. rewrite Hc, Hx. reflexivity.
  - rewrite (analyzeContent_absent r1 Hp), (analyzeContent_absent r2 E).
    reflexivity.
Qed.

(** ** Trimming *)

Lemma trimStart_head s c rest :
  trimStart s = c :: rest -> isWhiteSpace c = false.
Proof.
  induction s as [|a s IH]; simpl; [discriminate|].
  destruct (isWhiteSpace a) eqn:E; [exact IH|].
  intros H. injection H as <- _. exact E.
Qed.

Lemma trimStart_nil s : trimStart s = [] <-> forallb isWhiteSpace s = true.
Proof.
  induction s as [|a s IH]; simpl; [tauto|].
  destruct (isWhiteSpace a); simpl; [exact IH|].
  split; discriminate.
Qed.

Lemma trimStart_app_space s :
  trimStart (s ++ [32%N]) =
  match trimStart s with
  | [] => []
  | x => x ++ [32%N]
  end.
Proof.
  induction s as [|a s IH]; simpl; [reflexivity|].
  destruct (isWhiteSpace a); [exact IH | reflexivity].
Qed.

Lemma trimStart_app_other s c :
  isWhiteSpace c = false -> trimStart (s ++ [c]) = trimStart s ++ [c].
Proof.
  intros Hc. induction s as [|a s IH]; simpl.
  - rewrite Hc. reflexivity.
  - destruct (isWhiteSpace a); [exact IH | reflexivity].
Qed.

Lemma trimEnd_cons c s :
  isWhiteSpace c = false -> trimEnd (c :: s) = c :: trimEnd s.
Proof.
  intros Hc. unfold trimEnd. simpl.
  rewrite (trimStart_app_other _ c Hc), rev_app_distr. reflexivity.
Qed.

Lemma forallb_rev (f : CodeUnit -> bool) s : forallb f (rev s) = forallb f s.
Proof.
  induction s as [|a s IH]; simpl; [reflexivity|].
  rewrite forallb_app, IH. simpl. rewrite andb_true_r. apply andb_comm.
Qed.

Lemma trim_nil s : trim s = [] <-> forallb isWhiteSpace s = true.
Proof.
  unfold trim. split.
  - intros H. destruct (trimStart s) as [|c rest] eqn:E.
    + apply trimStart_nil. exact E.
    + rewrite (trimEnd_cons c rest (trimStart_head s c rest E)) in H.
      discriminate.
  - intros H. apply trimStart_nil in H. rewrite H. reflexivity.
Qed.

Lemma trimEnd_last s c d :
  trimEnd s = c :: d -> isWhiteSpace (last (trimEnd s) c) = false.
Proof.
  unfold trimEnd. intros H.
  destruct (trimStart (rev s)) as [|a rest] eqn:E; [discriminate|].
  simpl. rewrite last_last. apply (trimStart_head (rev s) a rest E).
Qed.

Lemma trim_noSpaceAtEnds s : noSpaceAtEnds (trim s).
Proof.
  unfold noSpaceAtEnds.
  destruct (trim s) as [|c rest] eqn:E; [exact I|].
  split.
  - unfold trim in E. destruct (trimStart s) as [|a r] eqn:Es; [discriminate|].
    pose proof (trimStart_head s a r Es) as Ha.
    rewrite (trimEnd_cons a r Ha) in E. injection E as <- _. exact Ha.
  - rewrite <- E. unfold trim in *. apply (trimEnd_last _ c rest E).
Qed.

Lemma trim_space_before s : trim (32%N :: s) = trim s.
Proof. reflexivity. Qed.

Lemma trim_space_after s : trim (s ++ [32%N]) = trim s.
Proof.
  unfold trim. rewrite trimStart_app_space.
  destruct (trimStart s) as [|c rest]; [reflexivity|].
  unfold trimEnd. rewrite rev_app_distr. reflexivity.
Qed.

(** ** Phrase rules *)










(** ** Matches *)

Lemma findPatternMatches_app combinedText ps qs :
  findPatternMatches combinedText (ps ++ qs) =
  findPatternMatches combinedText ps ++ findPatternMatches combinedText qs.
Proof.
  induction ps as [|p ps IH]; simpl; [reflexivity|].
  destruct (String_match combinedText p); simpl; rewrite IH; reflexivity.
Qed.

Lemma hit_app_left combinedText ps qs :
  hit combinedText ps = true -> hit combinedText (ps ++ qs) = true.
Proof.
  unfold hit. rewrite findPatternMatches_app, length_app.
  rewrite !Nat.ltb_lt. lia.
Qed.

(** ** Whether a result is flagged, and whether it has reasons *)

Lemma reasons_nonempty_result (request : ContentFlaggingRequest) :
  Nat.ltb 0 (length (reasons (analyzeContent request))) =
  anyHit (combined (content request)).
Proof.
  destruct (present (content request)) eqn:Hp.
  - rewrite (analyzeContent_present request Hp). cbv zeta. cbn [reasons].
    apply reasons_nonempty.
  - rewrite (analyzeContent_absent request Hp), (combined_absent _ Hp), anyHit_empty.
    reflexivity.
Qed.

Lemma isFlagged_analyzeContent (request : ContentFlaggingRequest) :
  isFlagged (analyzeContent request) =
  anyHit (combined (content request))
  || (present (content request) && repeatOffender (context request)).
Proof.
  destruct (present (content request)) eqn:Hp.
  - rewrite (analyzeContent_present request Hp).
    cbv zeta. cbn [isFlagged]. rewrite reasons_nonempty.
    destruct (anyHit (combined (content request))) eqn:Hhit;
      [apply orb_true_r|].
    rewrite (finalTally_without_hit _ (context request) Hhit).
    rewrite applyContextAdjustments_adjustFor.
    cbn [totalConfidence detectedReasons initialTally length orb].
    destruct (flagged_without_hit_enumerated
                (repeatOffender (context request))
                (platformIs (context request) "twitter")
                (audienceIs (context request) "children")) as [H1 _].
    rewrite H1, orb_false_r. reflexivity.
  - rewrite (analyzeContent_absent request Hp), (combined_absent _ Hp), anyHit_empty.
    reflexivity.
Qed.

Lemma severity_analyzeContent (request : ContentFlaggingRequest) :
  severityIndex (severity (analyzeContent request)) =
  list_max
    (map (fun entry =>
            severityIndex (severityOfEntry (combined (content request))
                                           (context request) entry))
         (hitEntries (combined (content request)))
     ++ (if personalInfoHit (combined (content request))
         then [severityIndex high] else [])).
Proof.
  destruct (present (content request)) eqn:Hp.
  - rewrite (analyzeContent_present request Hp). cbv zeta. cbn [severity].
    unfold finalTally, checkPersonalInfo, personalInfoHit, hitEntries.
    rewrite list_max_app.
    destruct (Nat.ltb 0 (length (findPersonalInfoPatterns _)));
      cbn [maxSeverity]; [rewrite getHigherSeverity_index|];
      rewrite severity_loop_max;
      cbn [maxSeverity initialTally severityIndex list_max fold_right];
      lia.
  - rewrite (analyzeContent_absent request Hp), (combined_absent _ Hp).
    vm_compute. reflexivity.
Qed.

(** ** More enumerations *)

Lemma soloOutcome_covers combinedText context reason entry :
  hit combinedText (rulesFor reason) = true ->
  In entry PATTERN_MAP ->
  In (outcome combinedText context (snd entry))
     (soloOutcome reason (soloConfidence reason combinedText context)
        (lengthClass (length combinedText)) (repeatOffender context) entry).
Proof.
  intros Hr Hin. unfold soloOutcome.
  destruct (reasonEqb (fst entry) reason) eqn:E.
  - apply reasonEqb_eq in E. rewrite (PATTERN_MAP_entry entry Hin), E. left.
    unfold outcome, soloConfidence. rewrite Hr. reflexivity.
  - apply outcome_any.
Qed.

(** What [soloCheck] checks, for a request that hits [reason]. *)
Lemma solo_checked (request : ContentFlaggingRequest) reason :
  (forall repeat, forallLengths (fun len => soloCheck reason len repeat) = true) ->
  hit (combined (content request)) (rulesFor reason) = true ->
  let solo := soloConfidence reason (combined (content request)) (context request) in
  (0.1 <=? solo) = true /\ (solo <=? 1) = true /\
  (solo <=? confidence (analyzeContent request)) = true.
Proof.
  intros Hcheck Hr solo.
  pose proof (hit_present _ _ Hr) as Hp.
  set (T := combined (content request)) in *.
  set (ctx := context request) in *.
  pose proof (forallLengths_at _ (lengthClass (length T))
                (Hcheck (repeatOffender ctx))) as Hlen.
  cbv beta in Hlen. unfold soloCheck in Hlen. rewrite forallb_forall in Hlen.
  specialize (Hlen (Some solo)).
  assert (Hsolo : In (Some solo)
            (hitOutcomes (length (rulesFor reason)) (lengthClass (length T))
               (repeatOffender ctx))).
  { pose proof (outcome_hit T ctx (rulesFor reason) Hr) as H.
    unfold outcome in H. rewrite Hr in H. exact H. }
  specialize (Hlen Hsolo). cbv beta iota in Hlen.
  rewrite !andb_true_iff in Hlen. destruct Hlen as [[H1 H2] H3].
  repeat split; [exact H1 | exact H2 |].
  exact (present_result_checked_by request _ _ Hp
           (fun entry => soloOutcome_covers T ctx reason entry Hr) H3).
Qed.

Lemma soloCheck_enumerated reason repeat :
  forallLengths (fun len => soloCheck reason len repeat) = true.
Proof. destruct reason, repeat; vm_compute; reflexivity. Qed.

Lemma finalTally_reachable_with combinedText context
  (choose : FlagReason * list RegExp -> list Outcome)
  (personalInfo : list Outcome) :
  (forall entry, In entry PATTERN_MAP ->
     In (outcome combinedText context (snd entry)) (choose entry)) ->
  In (personalInfoOutcome combinedText) personalInfo ->
  member (summary (finalTally combinedText context))
         (fold_left extend (outcomesWith choose personalInfo) [[0]]).
Proof.
  intros Hchoose Hpi. rewrite summary_finalTally. unfold outcomesWith.
  apply reachable_member; [|left; reflexivity].
  apply Forall2_app.
  - revert Hchoose. generalize PATTERN_MAP as entries.
    induction entries as [|e entries IH]; intros H; simpl; constructor.
    + apply H. left. reflexivity.
    + apply IH. intros entry Hin. apply H. right. exact Hin.
  - constructor; [exact Hpi | constructor].
Qed.

Lemma personalInfoCheck_enumerated repeat :
  forallLengths (fun len => personalInfoCheck len repeat) = true.
Proof. destruct repeat; vm_compute; reflexivity. Qed.

Lemma positive_without_hit_enumerated repeat twitter children :
  (0 <? Math_min (adjustFor 0 0 repeat twitter children) 1.0) =
  repeat || twitter || children.
Proof. destruct repeat, twitter, children; vm_compute; reflexivity. Qed.

Lemma positive_with_hit_enumerated repeat :
  forallLengths (fun len =>
    forallFinal repeat (reachable (outcomesBy (anyOutcome len repeat)))
      (fun count c => negb (Nat.ltb 0 count) || (0 <? c))) = true.
Proof. destruct repeat; vm_compute; reflexivity. Qed.

Lemma percent_enumerated repeat :
  forallLengths (fun len =>
    forallFinal repeat (reachable (outcomesBy (anyOutcome len repeat)))
      (fun _ c => percentCheck c)) = true.
Proof. destruct repeat; vm_compute; reflexivity. Qed.

(** ** The two runs side by side *)

Lemma totalsEqb_eq (a b : Totals) : totalsEqb a b = true -> a = b.
Proof.
  destruct a as [x1 x2], b as [y1 y2]. unfold totalsEqb; simpl.
  intros H. apply andb_true_iff in H. destruct H as [H1 H2].
  apply floatEqb_eq in H1. apply floatEqb_eq in H2. subst. reflexivity.
Qed.

Lemma outcome2Eqb_eq (a b : Outcome2) : outcome2Eqb a b = true -> a = b.
Proof.
  destruct a as [x|], b as [y|]; simpl; try discriminate; [|reflexivity].
  intros H. apply totalsEqb_eq in H. subst. reflexivity.
Qed.

Lemma union2_nth (t : Totals) (r1 : Reach2) :
  forall (r2 : Reach2) (k : nat),
  In t (nth k r1 []) \/ In t (nth k r2 []) ->
  In t (nth k (union2 r1 r2) []).
Proof.
  induction r1 as [|xs r1 IH]; intros r2 k H.
  - destruct H as [H|H]; [destruct k; contradiction | exact H].
  - destruct r2 as [|ys r2].
    + destruct H as [H|H]; [exact H | destruct k; contradiction].
    + destruct k as [|k]; simpl in *.
      * apply (addAll_In _ totalsEqb_eq). exact H.
      * apply IH. exact H.
Qed.

Lemma step2_member s o r : member2 s r -> member2 (bump2 s o) (step2 o r).
Proof.
  destruct s as [k t], o as [c|]; unfold member2; simpl; [|tauto].
  intros H.
  change (@nil Totals) with (map (fun t => (fst t + fst c, snd t + snd c)) []) at 1.
  rewrite (map_nth (map (fun t => (fst t + fst c, snd t + snd c)))).
  apply (in_map (fun t => (fst t + fst c, snd t + snd c))). exact H.
Qed.

Lemma extend2_member s o r os :
  member2 s r -> In o os -> member2 (bump2 s o) (extend2 r os).
Proof.
  intros Hs. unfold extend2.
  induction os as [|o' os IH]; simpl; [contradiction|].
  intros [->|Ho]; apply union2_nth.
  - left. apply step2_member. exact Hs.
  - right. apply IH. exact Ho.
Qed.

Lemma reachable2_member (os : list Outcome2) :
  forall (options : list (list Outcome2)) (r : Reach2) (s : Summary2),
  Forall2 (@In Outcome2) os options ->
  member2 s r ->
  member2 (fold_left bump2 os s) (fold_left extend2 options r).
Proof.
  induction os as [|o os IH]; intros options r s H Hs; inversion H; subst; simpl.
  - exact Hs.
  - apply IH; [assumption|]. apply extend2_member; assumption.
Qed.

Lemma forallFrom2_nth (p : nat -> Totals -> bool) (t : Totals) (r : Reach2) :
  forall count k,
  forallFrom2 count r p = true ->
  In t (nth k r []) ->
  p (count + k)%nat t = true.
Proof.
  induction r as [|totals r IH]; intros count k H Hin.
  - destruct k; contradiction.
  - simpl in H. apply andb_true_iff in H. destruct H as [H1 H2].
    destruct k as [|k]; simpl in Hin.
    + rewrite Nat.add_0_r. rewrite forallb_forall in H1. apply H1. exact Hin.
    + rewrite Nat.add_succ_r. apply (IH (S count) k H2 Hin).
Qed.

Lemma forallFrom2_member (p : nat -> Totals -> bool) (r : Reach2) (s : Summary2) :
  forallFrom2 0 r p = true -> member2 s r -> p (fst s) (snd s) = true.
Proof. intros H Hs. exact (forallFrom2_nth p (snd s) r 0%nat (fst s) H Hs). Qed.

Section TwoRuns.
Variable combinedText : JsString.
Variable context : option Context.

Let len := lengthClass (length combinedText).
Let repeat := repeatOffender context.

(** The summary of the two tallies. *)
Let summary2 (acc0 acc1 : Tally) : Summary2 :=
  (length (detectedReasons acc1), (totalConfidence acc0, totalConfidence acc1)).

Lemma summary2_loop entries :
  forall acc0 acc1,
  summary2 (fold_left (checkReason combinedText None) entries acc0)
           (fold_left (checkReason combinedText context) entries acc1) =
  fold_left bump2
    (map (fun e => outcome2 combinedText context (snd e)) entries)
    (summary2 acc0 acc1).
Proof.
  induction entries as [|[reason patterns] entries IH]; intros acc0 acc1.
  - reflexivity.
  - cbn [fold_left map snd]. rewrite IH. f_equal.
    unfold checkReason, outcome2, hit, summary2.
    destruct (Nat.ltb 0 (length (findPatternMatches combinedText patterns)));
      [|reflexivity].
    cbn [detectedReasons totalConfidence bump2 fst snd].
    rewrite length_app, Nat.add_1_r. reflexivity.
Qed.

Lemma summary2_finalTally :
  summary2 (finalTally combinedText None) (finalTally combinedText context) =
  fold_left bump2
    (map (fun e => outcome2 combinedText context (snd e)) PATTERN_MAP
       ++ [personalInfoOutcome2 combinedText])
    (0%nat, (0, 0)).
Proof.
  rewrite fold_left_app. cbn [fold_left].
  change (0%nat, (0, 0)) with (summary2 initialTally initialTally).
  rewrite <- (summary2_loop PATTERN_MAP initialTally initialTally).
  unfold finalTally, checkPersonalInfo, personalInfoOutcome2, summary2.
  destruct (Nat.ltb 0 (length (findPersonalInfoPatterns combinedText)));
    [|reflexivity].
  cbn [detectedReasons totalConfidence bump2 fst snd].
  rewrite length_app, Nat.add_1_r. reflexivity.
Qed.

Lemma outcome2_any patterns :
  In (outcome2 combinedText context patterns)
     (allOutcomes2 (length patterns) len repeat).
Proof.
  unfold outcome2, allOutcomes2.
  destruct (hit combinedText patterns) eqn:Hhit; [right | left; reflexivity].
  apply (dedupe_In outcome2Eqb outcome2Eqb_eq).
  rewrite !calculateConfidence_confidenceFor.
  apply (in_map (fun n => Some (confidenceFor n len false,
                                confidenceFor n len repeat))).
  apply in_seq. unfold hit in Hhit. apply Nat.ltb_lt in Hhit.
  pose proof (findPatternMatches_length combinedText patterns). lia.
Qed.

Lemma finalTally_reachable2 :
  member2 (summary2 (finalTally combinedText None)
                    (finalTally combinedText context))
          (reachable2 (outcomes2 len repeat)).
Proof.
  rewrite summary2_finalTally. unfold reachable2, outcomes2.
  apply reachable2_member; [|left; reflexivity].
  apply Forall2_app.
  - generalize PATTERN_MAP as entries.
    induction entries as [|e entries IH]; simpl; constructor;
      [apply outcome2_any | exact IH].
  - constructor; [|constructor].
    unfold personalInfoOutcome2. destruct (Nat.ltb 0 _); simpl; auto.
Qed.

(** The number of reasons is the same in both runs. *)
Lemma reasons_context_free :
  detectedReasons (finalTally combinedText None) =
  detectedReasons (finalTally combinedText context).
Proof. rewrite !reasons_finalTally. reflexivity. Qed.

Lemma confidence_with_context :
  contextCheck len repeat = true ->
  (Math_min (applyContextAdjustments
               (totalConfidence (finalTally combinedText None))
               (length (detectedReasons (finalTally combinedText None))) None) 1.0
   <=? Math_min (applyContextAdjustments
               (totalConfidence (finalTally combinedText context))
               (length (detectedReasons (finalTally combinedText context)))
               context) 1.0) = true.
Proof.
  intros Hcheck.
  pose proof (forallFrom2_member _ _ _ Hcheck finalTally_reachable2) as H.
  rewrite reasons_context_free, !applyContextAdjustments_adjustFor.
  unfold bools in H. cbn [forallb] in H. rewrite !andb_true_iff in H.
  destruct (platformIs context "twitter"), (audienceIs context "children");
    apply H.
Qed.

Lemma severityOfEntry_with_context entry :
  severityCheck len repeat = true ->
  In entry (hitEntries combinedText) ->
  (severityIndex (severityOfEntry combinedText None entry) <=
   severityIndex (severityOfEntry combinedText context entry))%nat.
Proof.
  unfold hitEntries. intros Hcheck Hin.
  apply filter_In in Hin. destruct Hin as [Hin Hhit].
  rewrite forallb_forall in Hcheck. specialize (Hcheck entry Hin).
  rewrite forallb_forall in Hcheck.
  unfold severityOfEntry. rewrite !calculateConfidence_confidenceFor.
  apply Nat.leb_le. apply Hcheck. apply in_seq.
  unfold hit in Hhit. apply Nat.ltb_lt in Hhit.
  pose proof (findPatternMatches_length combinedText (snd entry)). lia.
Qed.

End TwoRuns.

Lemma contextCheck_enumerated repeat :
  forallLengths (fun len => contextCheck len repeat) = true.
Proof. destruct repeat; vm_compute; reflexivity. Qed.

Lemma severityCheck_enumerated repeat :
  forallLengths (fun len => severityCheck len repeat) = true.
Proof. destruct repeat; vm_compute; reflexivity. Qed.

Lemma list_max_map_le {A : Type} (f g : A -> nat) (l : list A) :
  (forall x, In x l -> (f x <= g x)%nat) ->
  (list_max (map f l) <= list_max (map g l))%nat.
Proof.
  induction l as [|a l IH]; intros H; [simpl; lia|].
  cbn [map list_max fold_right].
  pose proof (H a (or_introl eq_refl)).
  assert (list_max (map f l) <= list_max (map g l))%nat
    by (apply IH; intros x Hx; apply H; right; exact Hx).
  unfold list_max in *. lia.
Qed.

(** ** The handlers of the server *)

Section ServerFacts.
Import Server.
Local Open Scope nat_scope.

Variable engineReturns : BuiltRequest -> bool.

(** The checks that a body has passed when its request is forwarded. *)
Lemma forwarded_checks (body : JsValue) (built : BuiltRequest) :
  postFlagContent engineReturns body = Forwarded built ->
  let content := get body "content" in
  let context := get body "context" in
  truthyValue content = true /\
  truthyValue (get content "id") = true /\
  truthyValue (get content "userId") = true /\
  includes validTypes (get content "type") = true /\
  (truthyValue (get content "text") = true \/
   truthyValue (get content "url") = true) /\
  built =
  {| builtContent :=
       {| builtId := get content "id";
          builtUserId := get content "userId";
          builtType := get content "type";
          builtText := whenTruthy (get content "text");
          builtUrl := whenTruthy (get content "url");
          builtMetadata := whenTruthy (get content "metadata") |};
     builtContext :=
       if truthyValue context then
         Some {| builtPlatform := whenTruthy (get context "platform");
                 builtAudience := whenTruthy (get context "audience");
                 builtPreviousFlags := whenDefined (get context "previousFlags") |}
       else None |}.
Proof.
  intros H content context.
  assert (Hchain :
    (if negb (truthyValue content) then
       Rejected 400 {| error := str "Missing required field: content";
                       code := str "MISSING_CONTENT" |}
     else if negb (truthyValue (get content "id"))
             || negb (truthyValue (get content "userId"))
             || negb (truthyValue (get content "type")) then
       Rejected 400 {| error := str "Content must include id, userId, and type fields";
                       code := str "INVALID_CONTENT_FORMAT" |}
     else if negb (includes validTypes (get content "type")) then
       Rejected 400 {| error := str "Invalid content type. Must be one of: "
                                  ++ join (str ", ") validTypes;
                       code := str "INVALID_CONTENT_TYPE" |}
     else if negb (truthyValue (get content "text"))
             && negb (truthyValue (get content "url")) then
       Rejected 400 {| error := str "Content must include either text or url field";
                       code := str "MISSING_CONTENT_DATA" |}
     else
       let flaggingRequest :=
         {| builtContent :=
              {| builtId := get content "id";
                 builtUserId := get content "userId";
                 builtType := get content "type";
                 builtText := whenTruthy (get content "text");
                 builtUrl := whenTruthy (get content "url");
                 builtMetadata := whenTruthy (get content "metadata") |};
            builtContext :=
              if truthyValue context then
                Some {| builtPlatform := whenTruthy (get context "platform");
                        builtAudience := whenTruthy (get context "audience");
                        builtPreviousFlags :=
                          whenDefined (get context "previousFlags") |}
              else None |} in
       if engineReturns flaggingRequest then Forwarded flaggingRequest
       else InternalError) = Forwarded built).
  { destruct body; try discriminate H; exact H. }
  clear H.
  destruct (truthyValue content) eqn:E1; [|discriminate Hchain].
  destruct (truthyValue (get content "id")) eqn:E2; [|discriminate Hchain].
  destruct (truthyValue (get content "userId")) eqn:E3; [|discriminate Hchain].
  destruct (truthyValue (get content "type")) eqn:E4; [|discriminate Hchain].
  destruct (includes validTypes (get content "type")) eqn:E5; [|discriminate Hchain].
  cbn [negb orb] in Hchain.
  destruct (truthyValue (get content "text")) eqn:E6;
    destruct (truthyValue (get content "url")) eqn:E7;
    cbn [negb andb] in Hchain; try discriminate Hchain;
    cbv zeta in Hchain;
    (destruct (engineReturns _); [|discriminate Hchain]);
    injection Hchain as <-; repeat split; auto.
Qed.

Lemma mapFrom_length (requests : list JsValue) :
  forall index, length (mapFrom engineReturns index requests) = length requests.
Proof.
  induction requests as [|v requests IH]; intros index; simpl;
    [reflexivity | rewrite IH; reflexivity].
Qed.

Lemma mapFrom_nth (requests : list JsValue) :
  forall index i v,
  nth_error requests i = Some v ->
  nth_error (mapFrom engineReturns index requests) i
  = Some (batchItem engineReturns v (index + i)).
Proof.
  induction requests as [|a requests IH]; intros index i v H.
  - destruct i; discriminate.
  - destruct i as [|i]; simpl in *.
    + injection H as ->. rewrite Nat.add_0_r. reflexivity.
    + rewrite Nat.add_succ_r. apply (IH (S index) i v H).
Qed.

Lemma filter_split {A : Type} (f : A -> bool) (l : list A) :
  length (filter (fun x => negb (f x)) l) + length (filter f l) = length l.
Proof.
  induction l as [|a l IH]; simpl; [reflexivity|].
  destruct (f a); simpl; lia.
Qed.

End ServerFacts.

(** ** The confidence of a category grows with its matches *)

Lemma lengthClass_monotone (n m : nat) :
  (n <= m)%nat -> (lengthRank (lengthClass n) <= lengthRank (lengthClass m))%nat.
Proof.
  intros H. unfold lengthClass.
  destruct (Nat.ltb n 100) eqn:E1; destruct (Nat.ltb m 100) eqn:E2;
    destruct (Nat.ltb 1000 n) eqn:E3; destruct (Nat.ltb 1000 m) eqn:E4;
    cbn [lengthRank]; try lia;
    rewrite ?Nat.ltb_lt, ?Nat.ltb_ge in *; lia.
Qed.

Lemma monotoneCheck_enumerated repeat : monotoneCheck repeat = true.
Proof. destruct repeat; vm_compute; reflexivity. Qed.

(* ================================================================== *)
(** * Further properties *)
(* ================================================================== *)

(** X1. The reasons of a result are the categories whose rules the combined
    text hits, in the order of the catalog, followed by
    [personal_information] when the personal-information check finds a match;
    they do not depend on the context. *)
Theorem reasons_in_catalog_order (request : ContentFlaggingRequest) :
  reasons (analyzeContent request) =
  map fst (hitEntries (combined (content request)))
    ++ (if personalInfoHit (combined (content request))
        then [personal_information] else []).
Proof. apply reasons_analyzeContent. Qed.

(** X2. A category is among the reasons of a result if and only if at least
    one of its rules matches the combined text. *)
Theorem reason_listed_iff_hit (request : ContentFlaggingRequest)
  (reason : FlagReason) :
  In reason (reasons (analyzeContent request)) <->
  hit (combined (content request)) (rulesFor reason) = true.
Proof. split; [apply listed_hit | apply hit_listed]. Qed.

(** X3. [copyright_violation] and [malware], whose rule sets are empty, are
    never among the reasons. *)
Theorem reserved_categories_never_listed (request : ContentFlaggingRequest) :
  ~ In copyright_violation (reasons (analyzeContent request)) /\
  ~ In malware (reasons (analyzeContent request)).
Proof.
  split; intros H; apply listed_hit in H; discriminate.
Qed.

(** X4. [inappropriate_language] holds the slur rule of [hate_speech] and
    nothing else: whenever it is among the reasons, so is [hate_speech]. *)
Theorem inappropriate_language_with_hate_speech (request : ContentFlaggingRequest) :
  In inappropriate_language (reasons (analyzeContent request)) ->
  In hate_speech (reasons (analyzeContent request)).
Proof.
  intros H. apply listed_hit in H. apply hit_listed.
  change (rulesFor hate_speech)
    with (rulesFor inappropriate_language ++ HATE_SPEECH_PATTERNS.discriminatory).
  apply hit_app_left. exact H.
Qed.

Lemma inappropriate_language_with_hate_speech_witness :
  In hate_speech (reasons (analyzeContent (textRequest "hate speech content" None))).
Proof.
  apply (inappropriate_language_with_hate_speech
           (textRequest "hate speech content" None)).
  vm_compute. right. left. reflexivity.
Defined.

(** X5. The severity of a result is the highest of the severities that
    [getSeverityForReason] gives to the hit categories, each with its own
    confidence, and of [high] when the personal-information check finds a
    match; it is [low] when nothing is hit. *)
Theorem severity_is_highest (request : ContentFlaggingRequest) :
  let combinedText := combined (content request) in
  severityIndex (severity (analyzeContent request)) =
  list_max
    (map (fun entry =>
            severityIndex (severityOfEntry combinedText (context request) entry))
         (hitEntries combinedText)
     ++ (if personalInfoHit combinedText then [severityIndex high] else [])).
Proof. apply severity_analyzeContent. Qed.

(** X6. [getHigherSeverity] is the maximum for the order low, medium, high,
    critical: it returns one of its arguments, the one of larger rank, and it
    is commutative, associative and idempotent. *)
Theorem getHigherSeverity_maximum (a b c : SeverityLevel) :
  severityIndex (getHigherSeverity a b)
    = Nat.max (severityIndex a) (severityIndex b) /\
  (getHigherSeverity a b = a \/ getHigherSeverity a b = b) /\
  getHigherSeverity a b = getHigherSeverity b a /\
  getHigherSeverity a (getHigherSeverity b c)
    = getHigherSeverity (getHigherSeverity a b) c /\
  getHigherSeverity a a = a.
Proof. destruct a, b, c; cbn; auto. Qed.

(** X7. [getSeverityForReason] never lowers the base severity of a category
    and raises it by one tier at most; it leaves it as it is when the
    confidence is not above 0.8, for [harassment], and when it is [critical]
    already, and otherwise raises it by exactly one tier. *)
Theorem escalation_by_one_tier (reason : FlagReason) (confidence : float) :
  let base := severityIndex (severityMap reason) in
  let result := severityIndex (getSeverityForReason reason confidence) in
  (base <= result <= S base)%nat /\
  ((0.8 <? confidence) = false -> result = base) /\
  (reason = harassment -> result = base) /\
  (reason <> harassment -> (0.8 <? confidence) = true ->
   result = Nat.min 3 (S base)).
Proof.
  cbv zeta. unfold getSeverityForReason.
  destruct reason; cbn [severityMap severityIndex];
    destruct (0.8 <? confidence); cbn [severityIndex Nat.min];
    repeat split; try lia; try congruence; intros; try lia; try congruence.
Qed.

(** X8. A result that is not flagged has no reasons, severity [low], a
    confidence of 0.3 at most, and no [details] or the clean message. *)
Theorem unflagged_result (request : ContentFlaggingRequest) :
  isFlagged (analyzeContent request) = false ->
  reasons (analyzeContent request) = [] /\
  severity (analyzeContent request) = low /\
  (confidence (analyzeContent request) <=? 0.3) = true /\
  (details (analyzeContent request) = None \/
   details (analyzeContent request) = Some (str "Content appears to be clean")).
Proof.
  destruct (present (content request)) eqn:Hp.
  - rewrite (analyzeContent_present request Hp). cbv zeta.
    cbn [isFlagged reasons severity confidence details].
    rewrite reasons_nonempty. intros H. apply orb_false_iff in H.
    destruct H as [Hadj Hhit]. revert Hadj.
    rewrite (finalTally_without_hit _ (context request) Hhit).
    rewrite applyContextAdjustments_adjustFor.
    cbn [totalConfidence detectedReasons maxSeverity initialTally length].
    destruct (flagged_without_hit_enumerated
                (repeatOffender (context request))
                (platformIs (context request) "twitter")
                (audienceIs (context request) "children")) as [H1 H2].
    rewrite H1. intros Hr. repeat split; [exact (H2 Hr) | right; reflexivity].
  - rewrite (analyzeContent_absent request Hp). intros _.
    repeat split. left. reflexivity.
Qed.

Lemma unflagged_result_witness :
  reasons (analyzeContent (textRequest "Thank you for your help" None)) = [] /\
  (confidence (analyzeContent (textRequest "Thank you for your help" None))
     <=? 0.3) = true.
Proof.
  destruct (unflagged_result (textRequest "Thank you for your help" None))
    as (H1 & _ & H3 & _); [vm_compute; reflexivity|].
  split; assumption.
Defined.

(** X9. A url is scanned as a text is: a content with a url and no text
    gets the result of the content with that string as its text and no url,
    whatever their [id], [userId] and [type]. *)
Theorem url_scanned_as_text (s : JsString) (ctx : option Context)
  (id1 userId1 id2 userId2 : JsString) (type1 type2 : ContentType) :
  analyzeContent
    {| content := {| id := id1; userId := userId1; type := type1;
                     text := None; url := Some s |};
       context := ctx |} =
  analyzeContent
    {| content := {| id := id2; userId := userId2; type := type2;
                     text := Some s; url := None |};
       context := ctx |}.
Proof.
  apply analyzeContent_ext; cbn [content context].
  - unfold present. cbn [text url falsy]. rewrite andb_true_r. reflexivity.
  - unfold combined. cbn [text url orEmpty].
    change (str " ") with [32%N]. cbn [app].
    rewrite trim_space_before, trim_space_after. reflexivity.
  - reflexivity.
Qed.

(** X10. The combined text has no white space at either end, and it is
    empty exactly when the text and the url hold nothing but white space. *)
Theorem combined_text_trimmed (c : ContentItem) :
  noSpaceAtEnds (combined c) /\
  (combined c = [] <->
   forallb isWhiteSpace (orEmpty (text c) ++ orEmpty (url c)) = true).
Proof.
  unfold combined. split; [apply trim_noSpaceAtEnds|].
  rewrite trim_nil, !forallb_app. change (str " ") with [32%N].
  cbn [forallb]. change (isWhiteSpace 32%N) with true. cbn [andb]. tauto.
Qed.


(** X12. [findPatternMatches] returns one match for each pattern of the
    list that matches the text, so as many matches as there are patterns for
    which [test] is true, and never more than there are patterns. *)
Theorem findPatternMatches_counts_matching_patterns
  (combinedText : JsString) (patterns : list RegExp) :
  length (findPatternMatches combinedText patterns) =
    length (filter (fun pattern => test pattern combinedText) patterns) /\
  (length (findPatternMatches combinedText patterns) <= length patterns)%nat.
Proof.
  split; [|apply findPatternMatches_length].
  induction patterns as [|pattern rest IH]; [reflexivity|].
  cbn [findPatternMatches filter]. unfold test at 1.
  destruct (String_match combinedText pattern); cbn [length]; rewrite IH;
    reflexivity.
Qed.

(** X13. The confidence of a result is above 0 exactly when a category is
    hit, or when a text or url is present and the context asks for an
    adjustment: [previousFlags] above 3, platform twitter or audience
    children. *)
Theorem confidence_positive_iff (request : ContentFlaggingRequest) :
  (0 <? confidence (analyzeContent request)) =
  anyHit (combined (content request))
  || (present (content request)
      && (repeatOffender (context request)
          || platformIs (context request) "twitter"
          || audienceIs (context request) "children")).
Proof.
  destruct (present (content request)) eqn:Hp.
  - destruct (anyHit (combined (content request))) eqn:Hhit.
    + pose proof (present_result_checked request
                    (fun count c => negb (Nat.ltb 0 count) || (0 <? c)) Hp
                    (positive_with_hit_enumerated _)) as H.
      cbv beta in H. rewrite reasons_nonempty_result, Hhit in H. exact H.
    + rewrite (analyzeContent_present request Hp). cbv zeta. cbn [confidence].
      rewrite (finalTally_without_hit _ (context request) Hhit).
      rewrite applyContextAdjustments_adjustFor.
      cbn [totalConfidence detectedReasons initialTally length orb andb].
      apply positive_without_hit_enumerated.
  - rewrite (analyzeContent_absent request Hp), (combined_absent _ Hp), anyHit_empty.
    reflexivity.
Qed.

(** X14. The confidence that [calculateConfidence] gives to a category that
    is hit lies between 0.1 and 1; for a category that is not hit it is 0. *)
Theorem solo_confidence_range (request : ContentFlaggingRequest)
  (reason : FlagReason) :
  let solo := soloConfidence reason (combined (content request)) (context request) in
  if hit (combined (content request)) (rulesFor reason)
  then (0.1 <=? solo) = true /\ (solo <=? 1) = true
  else solo = 0.
Proof.
  cbv zeta. destruct (hit _ _) eqn:Hhit.
  - destruct (solo_checked request reason (soloCheck_enumerated reason) Hhit)
      as (H1 & H2 & _). split; assumption.
  - unfold soloConfidence, calculateConfidence. unfold hit in Hhit.
    apply Nat.ltb_ge in Hhit.
    destruct (length (findPatternMatches _ _)); [reflexivity | lia].
Qed.

(** X15. The confidence of a result is not below the confidence of any
    category among its reasons taken on its own. *)
Theorem confidence_at_least_solo (request : ContentFlaggingRequest)
  (reason : FlagReason) :
  In reason (reasons (analyzeContent request)) ->
  (soloConfidence reason (combined (content request)) (context request)
   <=? confidence (analyzeContent request)) = true.
Proof.
  intros H. apply listed_hit in H.
  apply (solo_checked request reason (soloCheck_enumerated reason) H).
Qed.

Lemma confidence_at_least_solo_witness :
  (soloConfidence violence
     (combined (content (textRequest "I will kill you with my gun" None))) None
   <=? confidence (analyzeContent (textRequest "I will kill you with my gun" None)))
  = true.
Proof.
  apply (confidence_at_least_solo (textRequest "I will kill you with my gun" None)
                                  violence).
  vm_compute. right. left. reflexivity.
Defined.

(** X16. Whenever [personal_information] is among the reasons, the result
    is flagged with confidence 1 and severity high or critical, and has two
    reasons at least: the catalog entry and the check after the loop both
    count, and together they reach the cap. *)
Theorem personal_information_full_confidence (request : ContentFlaggingRequest) :
  In personal_information (reasons (analyzeContent request)) ->
  isFlagged (analyzeContent request) = true /\
  confidence (analyzeContent request) = 1 /\
  (1 < length (reasons (analyzeContent request)))%nat /\
  (severity (analyzeContent request) = high \/
   severity (analyzeContent request) = critical).
Proof.
  intros H. apply listed_hit in H.
  pose proof (hit_present _ _ H) as Hp.
  split; [apply (hit_flagged request personal_information H)|].
  assert (Hcheck :
    Nat.ltb 1 (length (reasons (analyzeContent request)))
    && PrimFloat.Leibniz.eqb (confidence (analyzeContent request)) 1 = true).
  { rewrite (analyzeContent_present request Hp). cbv zeta.
    cbn [reasons confidence]. rewrite applyContextAdjustments_adjustFor.
    apply (forallFinal_member _ _
             (fun count c => Nat.ltb 1 count && PrimFloat.Leibniz.eqb c 1)
             (summary (finalTally (combined (content request)) (context request)))
             _ _
             (forallLengths_at
                (fun len => personalInfoCheck len (repeatOffender (context request)))
                (lengthClass (length (combined (content request))))
                (personalInfoCheck_enumerated _))).
    apply finalTally_reachable_with.
    - intros entry Hin. unfold personalInfoFound.
      destruct (reasonEqb (fst entry) personal_information) eqn:E;
        [|apply outcome_any].
      apply reasonEqb_eq in E. apply outcome_hit.
      rewrite (PATTERN_MAP_entry entry Hin), E. exact H.
    - left. unfold personalInfoOutcome.
      change (Nat.ltb 0 (length (findPersonalInfoPatterns
                                   (combined (content request)))))
        with (hit (combined (content request)) (rulesFor personal_information)).
      rewrite H. reflexivity. }
  apply andb_true_iff in Hcheck. destruct Hcheck as [Hcount Hone].
  split; [apply floatEqb_eq; exact Hone|].
  split; [apply Nat.ltb_lt; exact Hcount|].
  rewrite (analyzeContent_present request Hp). cbv zeta. cbn [severity].
  destruct (hit_severity _ (context request) _ H) as [c Hle].
  destruct (0.8 <? c) eqn:E;
    unfold getSeverityForReason in Hle; cbn [severityMap] in Hle;
    rewrite E in Hle; cbn [severityIndex] in Hle;
    destruct (maxSeverity _); cbn in Hle; try lia; auto.
Qed.

Lemma personal_information_full_confidence_witness :
  confidence (analyzeContent (textRequest "write to test@example.com" None)) = 1.
Proof.
  apply (personal_information_full_confidence
           (textRequest "write to test@example.com" None)).
  vm_compute. left. reflexivity.
Defined.

(** X17. The percentage that [details] shows is [Math.round] of a number
    between 0 and 100: an integer from 0 to 100. *)
Theorem details_percent_range (request : ContentFlaggingRequest) :
  exists z : Z,
    Math_round (confidence (analyzeContent request) * 100) = IInt z /\
    (0 <= z <= 100)%Z.
Proof.
  assert (H : percentCheck (confidence (analyzeContent request)) = true).
  { destruct (present (content request)) eqn:Hp.
    - apply (present_result_checked request (fun _ c => percentCheck c) Hp).
      apply percent_enumerated.
    - rewrite (analyzeContent_absent request Hp). vm_compute. reflexivity. }
  unfold percentCheck in H.
  destruct (Math_round _) as [| |z]; try discriminate.
  exists z. split; [reflexivity|].
  apply andb_true_iff in H. destruct H as [H1 H2].
  apply Z.leb_le in H1. apply Z.leb_le in H2. lia.
Qed.

(** X18. A context never lowers a verdict: with any context the result has
    the reasons that it has without a context, a severity and a confidence
    that are not lower, and it is flagged if the result without a context
    is. *)
Theorem context_never_lowers (c : ContentItem) (ctx : option Context) :
  let without := analyzeContent {| content := c; context := None |} in
  let result := analyzeContent {| content := c; context := ctx |} in
  reasons result = reasons without /\
  (severityIndex (severity without) <= severityIndex (severity result))%nat /\
  (confidence without <=? confidence result) = true /\
  (isFlagged without = true -> isFlagged result = true).
Proof.
  cbv zeta. split; [rewrite !reasons_analyzeContent; reflexivity|].
  split.
  { rewrite !severity_analyzeContent. cbn [content context].
    rewrite !list_max_app.
    apply Nat.max_le_compat_r. apply list_max_map_le. intros entry Hin.
    apply severityOfEntry_with_context; [|exact Hin].
    apply (forallLengths_at (fun len => severityCheck len (repeatOffender ctx))
             (lengthClass (length (combined c)))
             (severityCheck_enumerated _)). }
  split.
  { destruct (present c) eqn:Hp.
    - rewrite (analyzeContent_present {| content := c; context := None |} Hp).
      rewrite (analyzeContent_present {| content := c; context := ctx |} Hp).
      cbv zeta. cbn [confidence content context].
      apply confidence_with_context.
      apply (forallLengths_at (fun len => contextCheck len (repeatOffender ctx))
               (lengthClass (length (combined c)))
               (contextCheck_enumerated _)).
    - rewrite (analyzeContent_absent {| content := c; context := None |} Hp).
      rewrite (analyzeContent_absent {| content := c; context := ctx |} Hp).
      reflexivity. }
  rewrite !isFlagged_analyzeContent. cbn [content context].
  change (repeatOffender None) with false. rewrite andb_false_r, orb_false_r.
  intros ->. reflexivity.
Qed.

(** X19. The handler of [POST /api/flag-content] forwards a request to the
    engine only when the content of the body has a truthy [id] and
    [userId], a [type] among text, image, video and link, and a truthy
    [text] or [url]; the request that it builds holds these values, and a
    [text] and a [url] only when they are truthy. *)
Theorem forwarded_request_is_valid
  (engineReturns : Server.BuiltRequest -> bool) (body : Server.JsValue)
  (built : Server.BuiltRequest) :
  Server.postFlagContent engineReturns body = Server.Forwarded built ->
  let c := Server.builtContent built in
  Server.truthyValue (Server.builtId c) = true /\
  Server.truthyValue (Server.builtUserId c) = true /\
  Server.includes Server.validTypes (Server.builtType c) = true /\
  (Server.builtText c <> None \/ Server.builtUrl c <> None) /\
  (forall v, Server.builtText c = Some v -> Server.truthyValue v = true) /\
  (forall v, Server.builtUrl c = Some v -> Server.truthyValue v = true).
Proof.
  intros H. apply forwarded_checks in H. cbv zeta in H.
  destruct H as (_ & Hid & Huser & Htype & Hdata & ->).
  cbn [Server.builtContent Server.builtId Server.builtUserId Server.builtType
       Server.builtText Server.builtUrl].
  unfold Server.whenTruthy.
  repeat split; try assumption.
  - destruct Hdata as [E|E]; rewrite E; [left | right]; discriminate.
  - intros v.
    destruct (Server.truthyValue (Server.get (Server.get body "content") "text"))
      eqn:E; [|discriminate].
    intros Hv. injection Hv as <-. exact E.
  - intros v.
    destruct (Server.truthyValue (Server.get (Server.get body "content") "url"))
      eqn:E; [|discriminate].
    intros Hv. injection Hv as <-. exact E.
Qed.

Lemma forwarded_request_is_valid_witness :
  exists built,
    Server.postFlagContent (fun _ => true)
      (Server.textBody "CLICK HERE FOR FREE MONEY!!!")
      = Server.Forwarded built /\
    Server.includes Server.validTypes
      (Server.builtType (Server.builtContent built)) = true.
Proof.
  eexists. split; [reflexivity|].
  eapply (forwarded_request_is_valid (fun _ => true)
            (Server.textBody "CLICK HERE FOR FREE MONEY!!!")).
  reflexivity.
Defined.

(** X20. A request that the handler of [POST /api/flag-content] forwards,
    when its values have the types of [ContentFlaggingRequest], passes the
    guard of [analyzeContent]: its text or its url is a non-empty string, so
    the result is never the clean result of the early return and carries
    [details]. *)
Theorem forwarded_request_passes_guard
  (engineReturns : Server.BuiltRequest -> bool) (body : Server.JsValue)
  (built : Server.BuiltRequest) (request : ContentFlaggingRequest) :
  Server.postFlagContent engineReturns body = Server.Forwarded built ->
  Server.wellTyped built request ->
  present (content request) = true /\
  details (analyzeContent request) <> None.
Proof.
  intros H (_ & _ & _ & Htext & Hurl & _).
  apply forwarded_checks in H. cbv zeta in H.
  destruct H as (_ & _ & _ & _ & Hdata & ->).
  cbn [Server.builtContent Server.builtText Server.builtUrl] in Htext, Hurl.
  unfold Server.whenTruthy in Htext, Hurl.
  assert (Hp : present (content request) = true).
  { unfold present, falsy. destruct Hdata as [E|E].
    - rewrite E in Htext. destruct (text (content request)) as [[|ch t]|];
        try discriminate Htext; [|reflexivity].
      injection Htext as Hv. rewrite Hv in E. discriminate E.
    - rewrite E in Hurl. destruct (url (content request)) as [[|ch t]|];
        try discriminate Hurl.
      + injection Hurl as Hv. rewrite Hv in E. discriminate E.
      + rewrite andb_false_r. reflexivity. }
  split; [exact Hp|].
  rewrite (analyzeContent_present request Hp). discriminate.
Qed.

Lemma forwarded_request_passes_guard_witness :
  present (content (textRequest "CLICK HERE FOR FREE MONEY!!!" None)) = true.
Proof.
  eapply (forwarded_request_passes_guard (fun _ => true)
            (Server.textBody "CLICK HERE FOR FREE MONEY!!!") _
            (textRequest "CLICK HERE FOR FREE MONEY!!!" None)).
  - reflexivity.
  - repeat split.
Defined.

(** X21. The callback of the batch handler validates an element exactly as
    the handler of [POST /api/flag-content] validates a body: it forwards a
    request if and only if the single handler forwards that same request,
    and otherwise puts an error object in its place. *)
Theorem batch_validates_as_single
  (engineReturns : Server.BuiltRequest -> bool) (v : Server.JsValue)
  (index : nat) (built : Server.BuiltRequest) :
  (Server.batchItem engineReturns v index = Server.ItemForwarded built <->
   Server.postFlagContent engineReturns v = Server.Forwarded built) /\
  (Server.hasError (Server.batchItem engineReturns v index) = true <->
   forall request,
     Server.postFlagContent engineReturns v <> Server.Forwarded request).
Proof.
  unfold Server.batchItem, Server.postFlagContent.
  destruct v;
    try (split; split;
         [discriminate | discriminate | intros _ r; discriminate | reflexivity]);
    repeat match goal with
           | |- context [if ?b then _ else _] =>
               match b with
               | Server.truthyValue (Server.get _ "context") => fail 1
               | _ => cbv zeta; destruct b;
                      try (split; split;
                           [discriminate | discriminate
                            | intros _ r; discriminate | reflexivity])
               end
           end;
    (split; split;
     [ intros H; injection H as <-; reflexivity
     | intros H; injection H as <-; reflexivity
     | discriminate
     | intros H; exfalso; exact (H _ eq_refl) ]).
Qed.

(** X22. The batch handler answers with responses only when [requests]
    is an array of 1 to 100 elements; the answer then has one response for
    each element, in the order of the elements, each made from its element
    and its index, and [successfulRequests] and [failedRequests] add up to
    [totalRequests], the number of elements. *)
Theorem batch_answer_counts
  (engineReturns : Server.BuiltRequest -> bool) (body : Server.JsValue)
  (answer : Server.BatchBody) :
  Server.postFlagContentBatch engineReturns body = Server.BatchAnswered answer ->
  exists requests,
    Server.get body "requests" = Server.VArray requests /\
    (1 <= length requests <= 100)%nat /\
    Server.totalRequests answer = length requests /\
    length (Server.responses answer) = length requests /\
    (Server.successfulRequests answer + Server.failedRequests answer
     = Server.totalRequests answer)%nat /\
    (forall i v, nth_error requests i = Some v ->
       nth_error (Server.responses answer) i
       = Some (Server.batchItem engineReturns v i)).
Proof.
  intros H.
  assert (Hbody :
    match Server.get body "requests" with
    | Server.VArray requests =>
        if Nat.eqb (length requests) 0 then
          Server.BatchRejected 400
            {| Server.error := str "Requests array cannot be empty";
               Server.code := str "EMPTY_BATCH" |}
        else if Nat.ltb 100 (length requests) then
          Server.BatchRejected 400
            {| Server.error := str "Batch size cannot exceed 100 requests";
               Server.code := str "BATCH_SIZE_EXCEEDED" |}
        else
          Server.BatchAnswered
            {| Server.totalRequests := length requests;
               Server.successfulRequests :=
                 length (filter (fun r => negb (Server.hasError r))
                                (Server.mapFrom engineReturns 0 requests));
               Server.failedRequests :=
                 length (filter Server.hasError
                                (Server.mapFrom engineReturns 0 requests));
               Server.responses := Server.mapFrom engineReturns 0 requests |}
    | _ =>
        Server.BatchRejected 400
          {| Server.error := str "Requests must be an array";
             Server.code := str "INVALID_BATCH_FORMAT" |}
    end = Server.BatchAnswered answer).
  { destruct body; try discriminate H; exact H. }
  clear H.
  destruct (Server.get body "requests") as [| | | | |requests|];
    try discriminate Hbody.
  destruct (Nat.eqb (length requests) 0) eqn:E0; [discriminate Hbody|].
  destruct (Nat.ltb 100 (length requests)) eqn:E1; [discriminate Hbody|].
  injection Hbody as <-. exists requests.
  apply Nat.eqb_neq in E0. apply Nat.ltb_ge in E1.
  cbn [Server.totalRequests Server.successfulRequests Server.failedRequests
       Server.responses].
  split; [reflexivity|]. split; [lia|]. split; [reflexivity|].
  split; [apply mapFrom_length|].
  split; [rewrite filter_split; apply mapFrom_length|].
  intros i v Hi. apply (mapFrom_nth engineReturns requests 0 i v Hi).
Qed.

Lemma batch_answer_counts_witness :
  exists answer,
    Server.postFlagContentBatch (fun _ => true)
      (Server.VObject
         [(str "requests",
           Server.VArray [Server.textBody "Clean content"; Server.VNull])])
    = Server.BatchAnswered answer /\
    (Server.successfulRequests answer + Server.failedRequests answer
     = Server.totalRequests answer)%nat.
Proof.
  eexists. split; [reflexivity|].
  destruct (batch_answer_counts (fun _ => true)
              (Server.VObject
                 [(str "requests",
                   Server.VArray [Server.textBody "Clean content"; Server.VNull])])
              _ eq_refl) as (requests & _ & _ & _ & _ & H & _).
  exact H.
Defined.

(** X23. For a category, more matching rules never give a lower confidence,
    and neither does a shorter text: [calculateConfidence] does not fall when
    the number of matches grows, up to the size of the largest rule set, or
    when the text gets shorter. *)
Theorem confidence_monotone (matches1 matches2 : list RegExpMatchArray)
  (text1 text2 : JsString) (ctx : option Context) :
  (length matches1 <= length matches2)%nat ->
  (length matches2 <= largestRuleSet)%nat ->
  (length text1 <= length text2)%nat ->
  (calculateConfidence matches1 text2 ctx
   <=? calculateConfidence matches2 text1 ctx) = true.
Proof.
  intros Hn Hmax Hlen. rewrite !calculateConfidence_confidenceFor.
  pose proof (monotoneCheck_enumerated (repeatOffender ctx)) as H.
  unfold monotoneCheck in H.
  assert (Hclass : forall len, In len lengthClasses)
    by (intros []; simpl; auto).
  rewrite forallb_forall in H.
  specialize (H (lengthClass (length text1)) (Hclass _)).
  rewrite forallb_forall in H.
  specialize (H (lengthClass (length text2)) (Hclass _)).
  rewrite forallb_forall in H.
  specialize (H (length matches1) ltac:(apply in_seq; lia)).
  rewrite forallb_forall in H.
  specialize (H (length matches2) ltac:(apply in_seq; lia)).
  apply orb_true_iff in H. destruct H as [H|H]; [|exact H].
  apply negb_true_iff, andb_false_iff in H.
  pose proof (lengthClass_monotone _ _ Hlen).
  destruct H as [H|H]; apply Nat.leb_gt in H; lia.
Qed.

Lemma confidence_monotone_witness :
  (calculateConfidence
     (findPatternMatches (str "click here") (rulesFor spam))
     (str "click here, this is no risk") None
   <=? calculateConfidence
     (findPatternMatches (str "click here, this is no risk") (rulesFor spam))
     (str "click here") None) = true.
Proof.
  apply confidence_monotone; vm_compute; lia.
Defined.
